(** * The trace-context framing codec of contrib/go-nsq (utils.go)

    [inject] frames a message body as

      length of body (4 bytes, big endian) | body | gob-encoded carrier

    and [extract] parses such a frame.  Both are embedded below as they are
    written in utils.go, over a small model of the parts of the Go runtime
    they use: byte slices with length and capacity, run-time panics,
    [encoding/binary]'s big-endian accessors, a [bytes.Buffer] pool.  The
    tracer and [encoding/gob] are collaborators reached through interfaces;
    they are type classes here, with an executable test double at the end
    of the definitions.

    Integers: [int] is taken to be 64 bits wide.  Every [int] computed by
    the two functions is a slice length or a length plus four, far below
    2^63, so it is written exactly in [Z]; the one narrowing conversion,
    [uint32(bs)], has its wrap-around written out in [uint32]. *)

From Stdlib Require Import ZArith Lia DecimalString.
From Stdlib.Strings Require Import Byte.
From Stdlib Require Import Floats.PrimFloat.
From stdpp Require Import base option list strings gmap.

Local Open Scope Z_scope.

(** ** Go runtime model *)

Module Go.

(** An [error] value is observed through its message. *)
Definition error : Type := string.

(** errors.New *)
Definition errors_New (text : string) : error := text.

(** A call either returns or panics with a run-time error. *)
Inductive outcome (A : Type) : Type :=
| Returned (a : A)
| Panicked (reason : string).
Arguments Returned {A} a.
Arguments Panicked {A} reason.

#[export] Instance outcome_ret : MRet outcome := λ A a, Returned a.
#[export] Instance outcome_bind : MBind outcome := λ A B k m,
  match m with
  | Returned a => k a
  | Panicked r => Panicked r
  end.

Definition returns {A} (m : outcome A) : Prop := ∃ a, m = Returned a.
Definition panics {A} (m : outcome A) : Prop := ∃ r, m = Panicked r.

(** A [[]byte] value: nil, or a window on a backing array.  [elems] are
    the [len] visible bytes, [spare] the bytes of the backing array
    between [len] and [cap]. *)
Inductive byteslice : Type :=
| nil_slice
| Slice (elems spare : list byte).

Definition contents (s : byteslice) : list byte :=
  match s with nil_slice => [] | Slice e _ => e end.

Definition room (s : byteslice) : list byte :=
  match s with nil_slice => [] | Slice _ sp => sp end.

Definition len (s : byteslice) : Z := Z.of_nat (length (contents s)).
Definition cap (s : byteslice) : Z := len s + Z.of_nat (length (room s)).

(** make([]byte, n) *)
Definition make (n : Z) : outcome byteslice :=
  if decide (0 ≤ n) then Returned (Slice (replicate (Z.to_nat n) x00) [])
  else Panicked "makeslice: len out of range".

(** s[lo:hi]; the upper bound of a slice of a slice is its capacity. *)
Definition slice_expr (s : byteslice) (lo hi : Z) : outcome byteslice :=
  if decide (0 ≤ lo ∧ lo ≤ hi ∧ hi ≤ cap s) then
    Returned
      match s with
      | nil_slice => nil_slice
      | Slice e sp =>
          let arr := e ++ sp in
          Slice (take (Z.to_nat (hi - lo)) (drop (Z.to_nat lo) arr))
                (drop (Z.to_nat hi) arr)
      end
  else Panicked "slice bounds out of range".

(** s[lo:] and s[:hi] *)
Definition slice_from (s : byteslice) (lo : Z) := slice_expr s lo (len s).
Definition slice_to (s : byteslice) (hi : Z) := slice_expr s 0 hi.

Definition overwrite (e : list byte) (lo : nat) (new : list byte) : list byte :=
  take lo e ++ new ++ drop (lo + length new) e.

Definition store (dst : byteslice) (lo : Z) (new : list byte) : byteslice :=
  match dst with
  | nil_slice => nil_slice
  | Slice e sp => Slice (overwrite e (Z.to_nat lo) new) sp
  end.

(** copy(dst[lo:], src).  The window dst[lo:] shares the backing array of
    [dst], so the min(len(dst)-lo, len(src)) bytes that are copied land in
    [dst] from index [lo] on; the updated [dst] and the count are
    returned.  [copy(dst, src)] is the case [lo = 0]. *)
Definition copy_from (dst : byteslice) (lo : Z) (src : byteslice)
  : outcome (byteslice * Z) :=
  w ← slice_from dst lo;
  let n := Z.min (len w) (len src) in
  mret (store dst lo (take (Z.to_nat n) (contents src)), n).

Definition copy (dst src : byteslice) : outcome (byteslice * Z) :=
  copy_from dst 0 src.

#[export] Instance byte_eq_decision : EqDecision byte := Byte.byte_eq_dec.

(** Conversions between [byte] and its value. *)
Definition Z_of_byte (b : byte) : Z := Z.of_N (Byte.to_N b).

(** byte(v): the low eight bits. *)
Definition byte_of_Z (v : Z) : byte :=
  default x00 (Byte.of_N (Z.to_N (v `mod` 256))).

(** uint32(v) of an int. *)
Definition uint32 (v : Z) : Z := v `mod` 2 ^ 32.

(** int(v) of a uint32, 64-bit int. *)
Definition int_of_uint32 (v : Z) : Z := v.

(** binary.BigEndian *)
Module BigEndian.

Definition bytes_of_uint32 (v : Z) : list byte :=
  [byte_of_Z (v ≫ 24); byte_of_Z (v ≫ 16); byte_of_Z (v ≫ 8); byte_of_Z v].

(** PutUint32(b, v): bounds check on b[3], then four stores. *)
Definition PutUint32 (b : byteslice) (v : Z) : outcome byteslice :=
  if decide (4 ≤ len b) then Returned (store b 0 (bytes_of_uint32 v))
  else Panicked "index out of range [3]".

(** Uint32(b): bounds check on b[3], then
    uint32(b[3]) | uint32(b[2])<<8 | uint32(b[1])<<16 | uint32(b[0])<<24 *)
Definition Uint32 (b : byteslice) : outcome Z :=
  match contents b with
  | b0 :: b1 :: b2 :: b3 :: _ =>
      Returned (Z.lor (Z.lor (Z.lor (Z_of_byte b3) (Z_of_byte b2 ≪ 8))
                             (Z_of_byte b1 ≪ 16))
                      (Z_of_byte b0 ≪ 24))
  | _ => Panicked "index out of range [3]"
  end.

End BigEndian.

(** bytes.Buffer, as far as it is used: its unread bytes. *)
Definition Buffer : Type := list byte.

(** sync.Pool of buffers: the items put and not yet taken.  The package
    leaves open which item [Get] hands out, whether it ignores the items
    and calls [New], and when items are dropped.  [Pool_take] is that
    choice, made outside the program: an item with the items that stay,
    or nothing. *)
Definition Pool : Type := list Buffer.

Class PoolPolicy : Type := { Pool_take : Pool → option (Buffer * Pool) }.

(** Get, for a pool whose New is bytes.NewBuffer(nil). *)
Definition Pool_Get {PP : PoolPolicy} (p : Pool) : Buffer * Pool :=
  match Pool_take p with
  | Some (b, rest) => (b, rest)
  | None => ([], p)
  end.

Definition Pool_Put (b : Buffer) (p : Pool) : Pool := b :: p.

End Go.
Import Go.



(** ** Collaborators *)

(** tracer.TextMapCarrier is a map[string]string. *)
Abbreviation TextMapCarrier := (gmap string string).

(** The tracer, as far as utils.go uses it: the interfaces [ddtrace.Span]
    and [ddtrace.SpanContext] with the methods called on them, and the
    package functions [tracer.Inject] and [tracer.Extract].  [Inject] fills
    the carrier it is handed, so the carrier is passed through; a nil
    context or error is [None]. *)
Class Tracer : Type := {
  Span : Type;
  SpanContext : Type;
  Context : Span → SpanContext;
  TraceID : SpanContext → N;
  SpanID : SpanContext → N;
  tracer_Inject : SpanContext → TextMapCarrier → TextMapCarrier * option error;
  tracer_Extract : TextMapCarrier → option SpanContext * option error
}.

(** encoding/gob on carriers.  [gob_Encode] gives the bytes the encoder
    writes to its buffer; [gob_Decode] reads one value from the bytes of a
    buffer into the map behind the pointer it is given. *)
Class Gob : Type := {
  gob_Encode : TextMapCarrier → list byte * option error;
  gob_Decode : list byte → TextMapCarrier → TextMapCarrier * option error
}.

(** ** utils.go *)

(** var bfp = sync.Pool{New: func() interface{} { return bytes.NewBuffer(nil) }} *)

(** getBuf: take a buffer from the pool and Reset it. *)
Definition getBuf {PP : PoolPolicy} (bfp : Pool) : Buffer * Pool :=
  let '(buf, bfp) := Pool_Get bfp in
  let buf : Buffer := [] in
  (buf, bfp).

Definition putBuf (buf : Buffer) (bfp : Pool) : Pool := Pool_Put buf bfp.

(** inject, with the pool threaded through.  The deferred [putBuf] runs on
    both returns that follow [getBuf]. *)
Definition inject {T : Tracer} {G : Gob} {PP : PoolPolicy}
    (bfp : Pool) (span : Span) (body : byteslice)
  : outcome ((byteslice * option error) * Pool) :=
  let bs := len body in
  bsb ← make 4;
  bsb ← BigEndian.PutUint32 bsb (uint32 bs);
  bts ← make (4 + bs);
  '(bts, i) ← copy bts bsb;
  '(bts, n) ← copy_from bts i body;
  let i := i + n in
  if decide (TraceID (Context span) = 0%N) then
    mret ((bts, None), bfp)
  else
    let carri : TextMapCarrier := ∅ in
    let '(carri, err) := tracer_Inject (Context span) carri in
    match err with
    | Some e => mret ((nil_slice, Some e), bfp)
    | None =>
        let '(buf, bfp) := getBuf bfp in
        let '(written, err) := gob_Encode carri in
        let buf := buf ++ written in
        match err with
        | Some e => mret ((nil_slice, Some e), putBuf buf bfp)
        | None =>
            withspn ← make (len bts + Z.of_nat (length buf));
            '(withspn, _) ← copy withspn bts;
            '(withspn, _) ← copy_from withspn i (Slice buf []);
            mret ((withspn, None), putBuf buf bfp)
        end
    end.

(** extract.  The length prefix is read twice in the source, once for the
    log line; the log output is not modelled. *)
Definition extract {T : Tracer} {G : Gob} (body : byteslice)
  : outcome (option SpanContext * byteslice * option error) :=
  if decide (len body < 4) then
    mret (None, nil_slice, Some (errors_New "length of message body is too small"))
  else
    hd ← slice_to body 4;
    _ ← BigEndian.Uint32 hd;
    hd ← slice_to body 4;
    v ← BigEndian.Uint32 hd;
    let bs := int_of_uint32 v in
    msgbody ← slice_expr body 4 (4 + bs);
    if decide (4 + bs = len body) then
      mret (None, msgbody, None)
    else
      let carri : TextMapCarrier := ∅ in
      tl ← slice_from body (4 + bs);
      let '(carri, err) := gob_Decode (contents tl) carri in
      match err with
      | Some e => mret (None, body, Some e)
      | None =>
          let '(spnctx, err) := tracer_Extract carri in
          mret (spnctx, msgbody, err)
      end.

(** An int that has left its 64 bits: the value it wraps around to. *)
Definition wrap_int (v : Z) : Z := (v + 2 ^ 63) `mod` 2 ^ 64 - 2 ^ 63.

(** a + b on int *)
Definition int_add (a b : Z) : Z := wrap_int (a + b).

(** bodySize; size += len(body[i]) is an addition of ints. *)
Definition bodySize (body : list byteslice) : Z :=
  foldl (λ size b, int_add size (len b)) 0 body.

(** The wire layout of section 6 of the design: the big-endian uint32 of
    the body length, then the body, then the context blob.  It is what the
    properties below compare [inject] with. *)
Definition frame (body : byteslice) (blob : list byte) : list byte :=
  BigEndian.bytes_of_uint32 (uint32 (len body)) ++ contents body ++ blob.

(** binary.BigEndian.Uint32(body[:4]), the expression [extract] reads the
    declared body length with. *)
Definition length_prefix (body : byteslice) : outcome Z :=
  hd ← slice_to body 4;
  BigEndian.Uint32 hd.

(** ** Test doubles

    An executable tracer and carrier serialisation, in the manner of the
    mock tracer that utils_test.go starts, to run the codec on concrete
    inputs. *)

Module Mock.

Record span_context : Type := {
  trace_id : N;
  span_id : N;
  baggage : list (string * string)
}.

Record span : Type := { span_ctx : span_context }.

Definition decimal (n : N) : string := NilZero.string_of_uint (N.to_uint n).
Definition parse_decimal (s : string) : option N :=
  N.of_uint <$> NilZero.uint_of_string s.

Definition trace_key : string := "x-datadog-trace-id".
Definition parent_key : string := "x-datadog-parent-id".
Definition baggage_prefix : string := "ot-baggage-".

Definition mock_Inject (ctx : span_context) (carri : TextMapCarrier)
  : TextMapCarrier * option error :=
  if decide (trace_id ctx = 0%N ∨ span_id ctx = 0%N) then
    (carri, Some (errors_New "invalid span context"))
  else
    let carri := <[trace_key := decimal (trace_id ctx)]> carri in
    let carri := <[parent_key := decimal (span_id ctx)]> carri in
    (foldl (λ c kv, <[(baggage_prefix +:+ kv.1)%string := kv.2]> c) carri (baggage ctx),
     None).

Definition mock_Extract (carri : TextMapCarrier)
  : option span_context * option error :=
  match carri !! trace_key ≫= parse_decimal, carri !! parent_key ≫= parse_decimal with
  | Some t, Some p =>
      if decide (t = 0%N ∨ p = 0%N) then
        (None, Some (errors_New "span context not found"))
      else (Some {| trace_id := t; span_id := p; baggage := [] |}, None)
  | _, _ => (None, Some (errors_New "span context not found"))
  end.

#[export] Instance mock_tracer : Tracer := {|
  Span := span;
  SpanContext := span_context;
  Context := span_ctx;
  TraceID := trace_id;
  SpanID := span_id;
  tracer_Inject := mock_Inject;
  tracer_Extract := mock_Extract
|}.

(** A toy wire format for carriers: every key and every value is written
    as its bytes followed by a zero byte.  A string that holds a zero byte
    cannot be written. *)
Definition has_zero (s : string) : bool :=
  bool_decide (x00 ∈ String.list_byte_of_string s).

Definition field (s : string) : list byte := String.list_byte_of_string s ++ [x00].

Definition mock_Encode (carri : TextMapCarrier) : list byte * option error :=
  let kvs := map_to_list carri in
  if existsb (λ kv, has_zero kv.1 || has_zero kv.2) kvs then
    ([], Some (errors_New "gob: unencodable string"))
  else (concat ((λ kv : string * string, field kv.1 ++ field kv.2) <$> kvs), None).

Fixpoint fields (cur : list byte) (bs : list byte) : option (list string) :=
  match bs with
  | [] => match cur with [] => Some [] | _ => None end
  | b :: rest =>
      if decide (b = x00) then
        (String.string_of_list_byte (rev cur) ::.) <$> fields [] rest
      else fields (b :: cur) rest
  end.

Fixpoint pairs (fs : list string) : option (list (string * string)) :=
  match fs with
  | [] => Some []
  | k :: v :: rest => ((k, v) ::.) <$> pairs rest
  | _ => None
  end.

Definition mock_Decode (bs : list byte) (carri : TextMapCarrier)
  : TextMapCarrier * option error :=
  match fields [] bs ≫= pairs with
  | Some kvs => (foldl (λ c kv, <[kv.1 := kv.2]> c) carri kvs, None)
  | None => (carri, Some (errors_New "gob: unexpected EOF"))
  end.

#[export] Instance mock_gob : Gob := {|
  gob_Encode := mock_Encode;
  gob_Decode := mock_Decode
|}.

(** A pool that hands out the buffer put last, and a new one when it is
    empty. *)
#[export] Instance mock_pool : PoolPolicy := {|
  Pool_take := λ p,
    match p with
    | [] => None
    | b :: rest => Some (b, rest)
    end
|}.

Definition bytes (s : string) : byteslice := Slice (String.list_byte_of_string s) [].

(** A body of 2^32 zero bytes, one more than a uint32 counts. *)
Definition huge_body : byteslice := Slice (replicate (Z.to_nat (2 ^ 32)) x00) [].

Definition traced : span :=
  {| span_ctx := {| trace_id := 7; span_id := 9; baggage := [] |} |}.

Definition untraced : span :=
  {| span_ctx := {| trace_id := 0; span_id := 9; baggage := [] |} |}.

Definition untraced' : span :=
  {| span_ctx := {| trace_id := 0; span_id := 0; baggage := [("k", "v")] |} |}.

(** A context the mock tracer refuses to inject. *)
Definition parentless : span :=
  {| span_ctx := {| trace_id := 7; span_id := 0; baggage := [] |} |}.

(** A context whose carrier the toy encoder cannot write. *)
Definition unencodable : span :=
  {| span_ctx :=
       {| trace_id := 7; span_id := 9;
          baggage := [("k", String (Ascii.ascii_of_nat 0) EmptyString)] |} |}.

End Mock.

(** ** What a caller sees of a call to [extract]

    The context, the bytes of the returned body and the error, or the
    panic. *)
Definition observed {T : Tracer}
    (r : outcome (option SpanContext * byteslice * option error))
  : outcome (option SpanContext * list byte * option error) :=
  '(spnctx, msgbody, err) ← r;
  mret (spnctx, contents msgbody, err).

(** ** option.go, and the configuration half of producer.go *)

Module Options.

(** What the two files take from outside the package: [context],
    [internal.BoolEnv], the nsq client and the two [ext] constants
    [startSpan] uses.  A nil interface or pointer is
    [None]. *)
Class Env : Type := {
  context_Context : Type;
  context_Background : context_Context;
  internal_BoolEnv : string → bool → bool;
  nsq_Producer : Type;
  nsq_Config : Type;
  nsq_NewProducer : string → nsq_Config → option nsq_Producer * option error;
  ext_SpanTypeMessageProducer : string;
  ext_EventSampleRate : string
}.

(** type config struct *)
Record config {E : Env} : Type := {
  service : string;
  analyticsRate : float;
  ctx : option context_Context
}.

(** type Option func(cfg *config): the update it makes to the struct
    behind the pointer. *)
Definition Option {E : Env} : Type := config → config.

Definition WithService {E : Env} (service : string) : Option :=
  λ cfg, {| service := service; analyticsRate := analyticsRate cfg; ctx := ctx cfg |}.

Definition WithAnalyticsRate {E : Env} (rate : float) : Option :=
  λ cfg,
    if is_nan rate then
      {| service := service cfg; analyticsRate := nan; ctx := ctx cfg |}
    else
      {| service := service cfg; analyticsRate := rate; ctx := ctx cfg |}.

Definition WithContext {E : Env} (ctx' : option context_Context) : Option :=
  λ cfg, {| service := service cfg; analyticsRate := analyticsRate cfg; ctx := ctx' |}.

Definition defaultConfig {E : Env} (cfg : config) : config :=
  let cfg := {| service := "nsq"; analyticsRate := analyticsRate cfg; ctx := ctx cfg |} in
  let cfg :=
    if internal_BoolEnv "DD_TRACE_ANALYTICS_ENABLED" false then
      {| service := service cfg; analyticsRate := 1; ctx := ctx cfg |}
    else
      {| service := service cfg; analyticsRate := nan; ctx := ctx cfg |} in
  {| service := service cfg; analyticsRate := analyticsRate cfg;
     ctx := Some context_Background |}.

(** type Producer struct.  producer.go writes the configuration type as
    clientConfig; it is the struct [defaultConfig] and the options work
    on. *)
Record Producer {E : Env} : Type := {
  Producer_Producer : option nsq_Producer;
  Producer_cfg : config
}.

(** &clientConfig{} *)
Definition zero_config {E : Env} : config :=
  {| service := ""; analyticsRate := 0; ctx := None |}.

Definition NewProducer {E : Env} (addr : string) (conf : nsq_Config)
    (opts : list Option) : option Producer * option error :=
  let '(prodc, err) := nsq_NewProducer addr conf in
  match err with
  | Some e => (None, Some e)
  | None =>
      let cfg := zero_config in
      let cfg := defaultConfig cfg in
      let cfg := foldl (λ cfg opt, opt cfg) cfg opts in
      (Some {| Producer_Producer := prodc; Producer_cfg := cfg |}, None)
  end.

(** The tracer's options for starting a span, by the function that
    makes them. *)
Inductive StartSpanOption : Type :=
| tracer_SpanType (t : string)
| tracer_ServiceName (name : string)
| tracer_ResourceName (name : string)
| tracer_Tag (k : string) (v : float).

(** startSpan, up to the call of tracer.StartSpanFromContext: the
    context, the operation name and the options it is called with. *)
Definition startSpan_call {E : Env} (prodc : Producer) (topic operation : string)
  : option context_Context * string * list StartSpanOption :=
  let opts :=
    [tracer_SpanType ext_SpanTypeMessageProducer;
     tracer_ServiceName (service (Producer_cfg prodc));
     tracer_ResourceName topic] in
  let opts :=
    if negb (is_nan (analyticsRate (Producer_cfg prodc))) then
      opts ++ [tracer_Tag ext_EventSampleRate (analyticsRate (Producer_cfg prodc))]
    else opts in
  (ctx (Producer_cfg prodc), operation, opts).

(** The options a caller can build with the three constructors of
    option.go. *)
Inductive setting {E : Env} : Type :=
| SetService (service : string)
| SetAnalyticsRate (rate : float)
| SetContext (ctx : option context_Context).

Definition option_of {E : Env} (s : setting) : Option :=
  match s with
  | SetService service => WithService service
  | SetAnalyticsRate rate => WithAnalyticsRate rate
  | SetContext ctx => WithContext ctx
  end.

Definition service_of {E : Env} (s : setting) : option string :=
  match s with SetService service => Some service | _ => None end.

Definition rate_of {E : Env} (s : setting) : option float :=
  match s with
  | SetAnalyticsRate rate => Some (if is_nan rate then nan else rate)
  | _ => None
  end.

Definition context_of {E : Env} (s : setting) : option (option context_Context) :=
  match s with SetContext ctx => Some ctx | _ => None end.

End Options.

(** ** The profiler's profile types (package profiler, profile.go) *)

Module Profiler.

(** type ProfileType int, and its constants in the order of the iota. *)
Definition ProfileType : Type := Z.

Definition HeapProfile : ProfileType := 0.
Definition CPUProfile : ProfileType := 1.
Definition BlockProfile : ProfileType := 2.
Definition MutexProfile : ProfileType := 3.
Definition GoroutineProfile : ProfileType := 4.
Definition expGoroutineWaitProfile : ProfileType := 5.
Definition MetricsProfile : ProfileType := 6.

(** int64 and uint64 arithmetic wraps around. *)
Definition int64 (v : Z) : Z := (v + 2 ^ 63) `mod` 2 ^ 64 - 2 ^ 63.
Definition uint64 (v : Z) : Z := v `mod` 2 ^ 64.

(** pprofutils.ValueType and pprofutils.Delta *)
Record ValueType : Type := { ValueType_Type : string; ValueType_Unit : string }.

Record Delta : Type := { Delta_SampleTypes : list ValueType }.

(** The functions stored in the Collect field of a collector, by name:
    the four function literals of the [collectors] table,
    [collectGenericProfile], and the literal of the fallback collector.
    [call_Collect] below runs them. *)
Inductive collect_func : Type :=
| collect_cpu
| collectGenericProfile
| collect_goroutinewait
| collect_metrics
| collect_not_implemented.

(** type collector struct *)
Record collector : Type := {
  Name : string;
  Filename : string;
  collector_Delta : option Delta;
  Collect : collect_func
}.

(** var collectors = map[ProfileType]collector{...} *)
Definition collectors : gmap Z collector :=
  list_to_map [
    (CPUProfile,
     {| Name := "cpu"; Filename := "cpu.pprof"; collector_Delta := None;
        Collect := collect_cpu |});
    (HeapProfile,
     {| Name := "heap"; Filename := "heap.pprof";
        collector_Delta :=
          Some {| Delta_SampleTypes :=
                    [{| ValueType_Type := "alloc_objects"; ValueType_Unit := "count" |};
                     {| ValueType_Type := "alloc_space"; ValueType_Unit := "bytes" |}] |};
        Collect := collectGenericProfile |});
    (MutexProfile,
     {| Name := "mutex"; Filename := "mutex.pprof";
        collector_Delta := Some {| Delta_SampleTypes := [] |};
        Collect := collectGenericProfile |});
    (BlockProfile,
     {| Name := "block"; Filename := "block.pprof";
        collector_Delta := Some {| Delta_SampleTypes := [] |};
        Collect := collectGenericProfile |});
    (GoroutineProfile,
     {| Name := "goroutine"; Filename := "goroutines.pprof";
        collector_Delta := None; Collect := collectGenericProfile |});
    (expGoroutineWaitProfile,
     {| Name := "goroutinewait"; Filename := "goroutineswait.pprof";
        collector_Delta := None; Collect := collect_goroutinewait |});
    (MetricsProfile,
     {| Name := "metrics"; Filename := "metrics.json";
        collector_Delta := None; Collect := collect_metrics |})
  ].

(** func (t ProfileType) collector() collector *)
Definition ProfileType_collector (t : ProfileType) : collector :=
  match collectors !! t with
  | Some pt => pt
  | None =>
      {| Name := "unknown"; Filename := "unknown"; collector_Delta := None;
         Collect := collect_not_implemented |}
  end.

(** func (t ProfileType) String() string *)
Definition ProfileType_String (t : ProfileType) : string :=
  Name (ProfileType_collector t).

(** func (t ProfileType) Filename() string *)
Definition ProfileType_Filename (t : ProfileType) : string :=
  Filename (ProfileType_collector t).

(** func (t ProfileType) Tag() string; the verb %s prints a ProfileType
    with its String method. *)
Definition ProfileType_Tag (t : ProfileType) : string :=
  "profile_type:" +:+ ProfileType_String t.

(** type profile struct; the data by its bytes. *)
Record profile : Type := { profile_name : string; profile_data : list byte }.

(** *** pprofile (github.com/google/pprof/profile)

    The structs with the fields profile.go sets or reads.  A pointer
    field holds the value it points to.  [Profile_rest] stands for the
    fields of a Profile that profile.go never names; they are zero in a
    profile built by [goroutineDebug2ToPprof]. *)
Record Function : Type := {
  Function_ID : Z;
  Function_Name : string;
  Function_Filename : string
}.

Record Line : Type := { Line_Function : Function; Line_Line : Z }.

Record Mapping : Type := { Mapping_ID : Z; Mapping_HasFunctions : bool }.

Record Location : Type := {
  Location_ID : Z;
  Location_Mapping : Mapping;
  Location_Line : list Line
}.

Record Sample : Type := {
  Sample_Location : list Location;
  Sample_Value : list Z;
  Sample_Label : gmap string (list string);
  Sample_NumLabel : gmap string (list Z);
  Sample_NumUnit : gmap string (list string)
}.

Record pprofile_ValueType : Type := { pprofile_Type : string; pprofile_Unit : string }.

Record Profile (R : Type) : Type := {
  Profile_SampleType : list pprofile_ValueType;
  Profile_Sample : list Sample;
  Profile_Mapping : list Mapping;
  Profile_Location : list Location;
  Profile_Function : list Function;
  Profile_Comments : list string;
  Profile_TimeNanos : Z;
  Profile_DurationNanos : Z;
  Profile_rest : R
}.
Arguments Profile_SampleType {R} _.
Arguments Profile_Sample {R} _.
Arguments Profile_Mapping {R} _.
Arguments Profile_Location {R} _.
Arguments Profile_Function {R} _.
Arguments Profile_Comments {R} _.
Arguments Profile_TimeNanos {R} _.
Arguments Profile_DurationNanos {R} _.
Arguments Profile_rest {R} _.

Definition set_DurationNanos {R} (v : Z) (p : Profile R) : Profile R :=
  {| Profile_SampleType := Profile_SampleType p; Profile_Sample := Profile_Sample p;
     Profile_Mapping := Profile_Mapping p; Profile_Location := Profile_Location p;
     Profile_Function := Profile_Function p; Profile_Comments := Profile_Comments p;
     Profile_TimeNanos := Profile_TimeNanos p; Profile_DurationNanos := v;
     Profile_rest := Profile_rest p |}.

Definition set_TimeNanos {R} (v : Z) (p : Profile R) : Profile R :=
  {| Profile_SampleType := Profile_SampleType p; Profile_Sample := Profile_Sample p;
     Profile_Mapping := Profile_Mapping p; Profile_Location := Profile_Location p;
     Profile_Function := Profile_Function p; Profile_Comments := Profile_Comments p;
     Profile_TimeNanos := v; Profile_DurationNanos := Profile_DurationNanos p;
     Profile_rest := Profile_rest p |}.

(** gostackparse.Frame and gostackparse.Goroutine; a stack holds no nil
    frame. *)
Record Frame : Type := { Frame_Func : string; Frame_File : string; Frame_Line : Z }.

Record Goroutine : Type := {
  Goroutine_ID : Z;
  Goroutine_State : string;
  Goroutine_Wait : Z;
  Goroutine_LockedToThread : bool;
  Goroutine_Stack : list Frame;
  Goroutine_FramesElided : bool;
  Goroutine_CreatedBy : option Frame
}.

(** What profile.go calls outside the package.  Calls that read or
    change the process or its surroundings thread a [World].  A call
    handed a pointer gives back the value behind it where it may change
    it: [Delta_Convert] returns its two arguments as it leaves them.  A
    result and error pair of which the code uses one or the other is a
    sum. *)
Class Runtime : Type := {
  World : Type;
  Time : Type;
  rest : Type;
  rest_zero : rest;
  time_Now_UTC : World → Time * World;
  Time_Sub : Time → Time → Z;
  Time_UnixNano : Time → Z;
  time_Sleep : Z → World → World;
  pprof_StartCPUProfile : World → option error * World;
  pprof_StopCPUProfile : World → list byte * World;
  pprof_Profile : Type;
  pprof_Lookup : string → World → option pprof_Profile;
  pprof_WriteTo : pprof_Profile → Z → World → (list byte * option error) * World;
  met_report : Time → World → (list byte * option error) * World;
  statsd_Timing : string → Z → list string → float → World → World;
  pprofile_ParseData : list byte → Profile rest + error;
  Delta_Convert :
    Delta → Profile rest → Profile rest →
    Profile rest * Profile rest * (Profile rest + error);
  Profile_Write : Profile rest → list byte * option error;
  Profile_CheckValid : Profile rest → option error;
  gostackparse_Parse : list byte → outcome (list Goroutine * list error)
}.

(** The profiler, as far as profile.go uses it: p.cfg.cpuDuration,
    p.cfg.tags and p.prev.  p.cfg.statsd and p.met are reached through
    the [World]. *)
Record profiler {RT : Runtime} : Type := {
  cfg_cpuDuration : Z;
  cfg_tags : list string;
  prev : gmap Z (Profile rest)
}.

Definition set_prev {RT : Runtime} (m : gmap Z (Profile rest)) (p : profiler)
  : profiler :=
  {| cfg_cpuDuration := cfg_cpuDuration p; cfg_tags := cfg_tags p; prev := m |}.

(** func now() time.Time *)
Definition now {RT : Runtime} (w : World) : Time * World := time_Now_UTC w.

(** var lookupProfile = func(name string, w io.Writer, debug int) error:
    the bytes written to w, and the error. *)
Definition lookupProfile {RT : Runtime} (name : string) (debug : Z) (w : World)
  : (list byte * option error) * World :=
  match pprof_Lookup name w with
  | None => (([], Some (errors_New "profile not found")), w)
  | Some prof => pprof_WriteTo prof debug w
  end.

(** The loop body of goroutineDebug2ToPprof over the frames of a stack:
    p.Function, p.Location, the two counters and sample.Location. *)
Record builder : Type := {
  b_Function : list Function;
  b_Location : list Location;
  b_Sample : list Sample;
  functionID : Z;
  locationID : Z
}.

Definition add_call (m : Mapping) (st : builder * list Location) (call : Frame)
  : builder * list Location :=
  let '(b, sample_Location) := st in
  let function :=
    {| Function_ID := functionID b; Function_Name := Frame_Func call;
       Function_Filename := Frame_File call |} in
  let location :=
    {| Location_ID := locationID b; Location_Mapping := m;
       Location_Line :=
         [{| Line_Function := function; Line_Line := int64 (Frame_Line call) |}] |} in
  ({| b_Function := b_Function b ++ [function];
      b_Location := b_Location b ++ [location];
      b_Sample := b_Sample b;
      functionID := uint64 (functionID b + 1);
      locationID := uint64 (locationID b + 1) |},
   sample_Location ++ [location]).

(** The frames a goroutine contributes: its stack, the frame that
    created it, and a virtual frame when frames were elided. *)
Definition full_stack (g : Goroutine) : list Frame :=
  let stack := Goroutine_Stack g in
  let stack :=
    match Goroutine_CreatedBy g with
    | Some f => stack ++ [f]
    | None => stack
    end in
  if Goroutine_FramesElided g then
    stack ++ [{| Frame_Func := "...additional frames elided...";
                 Frame_File := ""; Frame_Line := 0 |}]
  else stack.

Definition bool_verb (b : bool) : string := if b then "true" else "false".

Definition add_goroutine (m : Mapping) (b : builder) (g : Goroutine) : builder :=
  let '(b, sample_Location) := foldl (add_call m) (b, []) (full_stack g) in
  let sample :=
    {| Sample_Location := sample_Location;
       Sample_Value := [Goroutine_Wait g];
       Sample_Label :=
         {[ "state" := [Goroutine_State g];
            "lockedm" := [bool_verb (Goroutine_LockedToThread g)] ]};
       Sample_NumLabel := {[ "goid" := [int64 (Goroutine_ID g)] ]};
       Sample_NumUnit := {[ "goid" := ["id"] ]} |} in
  {| b_Function := b_Function b; b_Location := b_Location b;
     b_Sample := b_Sample b ++ [sample];
     functionID := functionID b; locationID := locationID b |}.

(** The profile goroutineDebug2ToPprof builds, before it validates and
    writes it. *)
Definition goroutine_profile {RT : Runtime} (goroutines : list Goroutine)
    (errs : list error) (t : Time) : Profile rest :=
  let m := {| Mapping_ID := 1; Mapping_HasFunctions := true |} in
  let b :=
    foldl (add_goroutine m)
      {| b_Function := []; b_Location := []; b_Sample := [];
         functionID := 1; locationID := 1 |}
      goroutines in
  {| Profile_SampleType :=
       [{| pprofile_Type := "waitduration"; pprofile_Unit := "nanoseconds" |}];
     Profile_Sample := b_Sample b;
     Profile_Mapping := [m];
     Profile_Location := b_Location b;
     Profile_Function := b_Function b;
     Profile_Comments := (λ err, "error: " +:+ err) <$> errs;
     Profile_TimeNanos := Time_UnixNano t;
     Profile_DurationNanos := 0;
     Profile_rest := rest_zero |}.

(** func goroutineDebug2ToPprof(r io.Reader, w io.Writer, t time.Time)
    (err error): the bytes read from r, the bytes written to w, the
    error.  A panic is recovered into the error. *)
Definition goroutineDebug2ToPprof {RT : Runtime} (r : list byte) (t : Time)
  : list byte * option error :=
  match gostackparse_Parse r with
  | Panicked v => ([], Some ("panic: " +:+ v))
  | Returned (goroutines, errs) =>
      let p := goroutine_profile goroutines errs t in
      match Profile_CheckValid p with
      | Some err => ([], Some ("marshalGoroutineDebug2Profile: " +:+ err))
      | None =>
          let '(written, err) := Profile_Write p in
          match err with
          | Some err => (written, Some ("marshalGoroutineDebug2Profile: " +:+ err))
          | None => (written, None)
          end
      end
  end.

(** pt.Collect(pt, p) *)
Definition call_Collect {RT : Runtime} (f : collect_func) (c : collector)
    (p : profiler) (w : World) : (list byte * option error) * World :=
  match f with
  | collect_cpu =>
      let '(err, w) := pprof_StartCPUProfile w in
      match err with
      | Some err => (([], Some err), w)
      | None =>
          let w := time_Sleep (cfg_cpuDuration p) w in
          let '(buf, w) := pprof_StopCPUProfile w in
          ((buf, None), w)
      end
  | collectGenericProfile => lookupProfile (Name c) 0 w
  | collect_goroutinewait =>
      let '(now, w) := now w in
      let '((text, err), w) := lookupProfile (Name c) 2 w in
      match err with
      | Some err => (([], Some err), w)
      | None => (goroutineDebug2ToPprof text now, w)
      end
  | collect_metrics =>
      let '(t, w) := now w in
      met_report t w
  | collect_not_implemented =>
      (([], Some (errors_New "profile type not implemented")), w)
  end.

(** func (p *profiler) deltaProfile(c collector, t ProfileType, data []byte):
    the profile or nil, the error or nil, and the profiler it leaves. *)
Definition deltaProfile {RT : Runtime} (p : profiler) (c : collector)
    (t : ProfileType) (data : list byte)
  : (option profile * option error) * profiler :=
  let pt := c in
  match collector_Delta pt with
  | None => ((None, None), p)
  | Some delta =>
      match pprofile_ParseData data with
      | inr err => ((None, Some ("delta prof parse: " +:+ err)), p)
      | inl currentProf =>
          (* the if/else on p.prev[t]: an early return with its error, or
             deltaData *)
          let step : error * profiler + list byte * Profile rest * profiler :=
            match prev p !! t with
            | None => inr (data, currentProf, p)
            | Some prevProf =>
                let '(prevProf, currentProf, converted) :=
                  Delta_Convert delta prevProf currentProf in
                let p := set_prev (<[t := prevProf]> (prev p)) p in
                match converted with
                | inr err => inl ("delta prof merge: " +:+ err, p)
                | inl deltaProf =>
                    let deltaProf :=
                      set_DurationNanos
                        (int64 (Profile_TimeNanos currentProf
                                - Profile_TimeNanos prevProf)) deltaProf in
                    let deltaProf :=
                      set_TimeNanos (Profile_TimeNanos currentProf) deltaProf in
                    let '(deltaBuf, err) := Profile_Write deltaProf in
                    match err with
                    | Some err => inl ("delta prof write: " +:+ err, p)
                    | None => inr (deltaBuf, currentProf, p)
                    end
                end
            end in
          match step with
          | inl (err, p) => ((None, Some err), p)
          | inr (deltaData, currentProf, p) =>
              let p := set_prev (<[t := currentProf]> (prev p)) p in
              ((Some {| profile_name := "delta-" +:+ Filename pt;
                        profile_data := deltaData |}, None), p)
          end
      end
  end.

(** func (p *profiler) runProfile(t ProfileType): the profiles, the
    error, and the profiler and the world it leaves. *)
Definition runProfile {RT : Runtime} (p : profiler) (t : ProfileType) (w : World)
  : (list profile * option error) * profiler * World :=
  let pt := ProfileType_collector t in
  let '(start, w) := now w in
  let '((data, err), w) := call_Collect (Collect pt) pt p w in
  match err with
  | Some err => (([], Some err), p, w)
  | None =>
      let profs := [{| profile_name := Filename pt; profile_data := data |}] in
      let '((prof, err), p) := deltaProfile p pt t data in
      match err with
      | Some err => (([], Some ("delta profile error: " +:+ err)), p, w)
      | None =>
          let profs :=
            match prof with
            | Some prof => profs ++ [prof]
            | None => profs
            end in
          let '(end_, w) := now w in
          let tags := cfg_tags p ++ [ProfileType_Tag t] in
          let w :=
            statsd_Timing "datadog.profiler.go.collect_time"
              (Time_Sub end_ start) tags 1 w in
          ((profs, None), p, w)
      end
  end.

(** All the frames of a list of goroutines, in the order
    goroutineDebug2ToPprof visits them. *)
Definition all_frames (goroutines : list Goroutine) : list Frame :=
  concat (full_stack <$> goroutines).

(** The function and the location goroutineDebug2ToPprof makes for the
    frame it visits as number i, counting from 0. *)
Definition function_at (i : nat) (call : Frame) : Function :=
  {| Function_ID := uint64 (1 + Z.of_nat i); Function_Name := Frame_Func call;
     Function_Filename := Frame_File call |}.

Definition location_at (i : nat) (call : Frame) : Location :=
  {| Location_ID := uint64 (1 + Z.of_nat i);
     Location_Mapping := {| Mapping_ID := 1; Mapping_HasFunctions := true |};
     Location_Line :=
       [{| Line_Function := function_at i call;
           Line_Line := int64 (Frame_Line call) |}] |}.

End Profiler.

(** ** Test doubles for the configuration and the profiler *)

Module MockRuntime.

Import Options Profiler.

(** An environment without DD_TRACE_ANALYTICS_ENABLED, and an nsq client
    that refuses the empty address. *)
#[export] Instance mock_env : Env := {|
  context_Context := string;
  context_Background := "background";
  internal_BoolEnv := λ _ def, def;
  nsq_Producer := string;
  nsq_Config := unit;
  nsq_NewProducer := λ addr _,
    if decide (addr = "") then (None, Some (errors_New "invalid address"))
    else (Some addr, None);
  ext_SpanTypeMessageProducer := "queue";
  ext_EventSampleRate := "_dd1.sr.eausr"
|}.

(** A parsed profile of the toy format: its time is the first byte. *)
Definition parsed (time : Z) : Profile unit :=
  {| Profile_SampleType := []; Profile_Sample := []; Profile_Mapping := [];
     Profile_Location := []; Profile_Function := []; Profile_Comments := [];
     Profile_TimeNanos := time; Profile_DurationNanos := 0; Profile_rest := tt |}.

(** A world that records what is done to it; the clock reads the number
    of events so far. *)
#[export] Instance mock_runtime : Runtime := {|
  World := list string;
  Time := Z;
  rest := unit;
  rest_zero := tt;
  time_Now_UTC := λ w, (Z.of_nat (length w), w ++ ["now"]);
  Time_Sub := λ t u, t - u;
  Time_UnixNano := λ t, t;
  time_Sleep := λ _ w, w ++ ["sleep"];
  pprof_StartCPUProfile := λ w, (None, w ++ ["start cpu"]);
  pprof_StopCPUProfile := λ w, ([x01; x02], w ++ ["stop cpu"]);
  pprof_Profile := string;
  pprof_Lookup := λ name _,
    if decide (name = "goroutine") then None else Some name;
  pprof_WriteTo := λ prof _ w,
    ((x07 :: String.list_byte_of_string prof, None), w ++ ["write"]);
  met_report := λ _ w, (([x7b; x7d], None), w ++ ["report"]);
  statsd_Timing := λ _ _ _ _ w, w ++ ["timing"];
  pprofile_ParseData := λ data,
    match data with
    | [] => inr (errors_New "empty profile")
    | b :: _ => inl (parsed (Z_of_byte b))
    end;
  Delta_Convert := λ _ old cur, (old, cur, inl cur);
  Profile_Write := λ p,
    ([byte_of_Z (Profile_TimeNanos p); byte_of_Z (Profile_DurationNanos p)], None);
  Profile_CheckValid := λ _, None;
  gostackparse_Parse := λ r,
    match r with
    | [] => Panicked "no input"
    | _ => Returned ([], [])
    end
|}.

Definition fresh_profiler : profiler :=
  {| cfg_cpuDuration := 1; cfg_tags := ["env:test"]; prev := ∅ |}.

Definition main_frame : Frame :=
  {| Frame_Func := "main.main"; Frame_File := "main.go"; Frame_Line := 10 |}.

Definition go_frame : Frame :=
  {| Frame_Func := "main.start"; Frame_File := "main.go"; Frame_Line := 5 |}.

Definition waiting : Goroutine :=
  {| Goroutine_ID := 7; Goroutine_State := "chan receive"; Goroutine_Wait := 60;
     Goroutine_LockedToThread := false; Goroutine_Stack := [main_frame];
     Goroutine_FramesElided := true; Goroutine_CreatedBy := Some go_frame |}.

End MockRuntime.

(** * Properties *)

Example make_3 : make 3 = Returned (Slice [x00; x00; x00] []).
Proof. reflexivity. Qed.

Example put_get_12 :
  BigEndian.bytes_of_uint32 12 = [x00; x00; x00; x0c].
Proof. reflexivity. Qed.

(** ** Bytes and the big-endian prefix *)

Section Bytes.

Lemma Z_of_byte_range (b : byte) : 0 ≤ Z_of_byte b < 256.
Proof.
  unfold Z_of_byte. pose proof (Byte.to_N_bounded b). lia.
Qed.

Lemma Z_of_byte_of_Z (v : Z) : Z_of_byte (byte_of_Z v) = v `mod` 256.
Proof.
  unfold Z_of_byte, byte_of_Z.
  assert (0 ≤ v `mod` 256 < 256) as Hr by (apply Z.mod_pos_bound; lia).
  destruct (Byte.of_N (Z.to_N (v `mod` 256))) as [b|] eqn:E; simpl.
  - apply Byte.to_of_N in E. rewrite E. lia.
  - apply Byte.of_N_None_iff in E. lia.
Qed.

Lemma byte_of_Z_mod (v : Z) : byte_of_Z (v `mod` 256) = byte_of_Z v.
Proof. unfold byte_of_Z. by rewrite Z.mod_mod. Qed.

Lemma testbit_low_byte (v i : Z) :
  0 ≤ i → Z.testbit (v `mod` 256) i = bool_decide (i < 8) && Z.testbit v i.
Proof.
  intros Hi. change 256 with (2 ^ 8).
  case_bool_decide.
  - by rewrite Z.mod_pow2_bits_low by lia.
  - by rewrite Z.mod_pow2_bits_high by lia.
Qed.

Lemma testbit_high (v i : Z) : 0 ≤ v < 2 ^ 32 → 32 ≤ i → Z.testbit v i = false.
Proof.
  intros Hv Hi. rewrite <- (Z.mod_small v (2 ^ 32)) by lia.
  apply Z.mod_pow2_bits_high. lia.
Qed.

(** The four bytes written by [PutUint32] are read back by [Uint32]. *)
Lemma uint32_bytes_value (v : Z) :
  0 ≤ v < 2 ^ 32 →
  Z.lor (Z.lor (Z.lor (Z_of_byte (byte_of_Z v))
                      (Z_of_byte (byte_of_Z (v ≫ 8)) ≪ 8))
               (Z_of_byte (byte_of_Z (v ≫ 16)) ≪ 16))
        (Z_of_byte (byte_of_Z (v ≫ 24)) ≪ 24) = v.
Proof.
  intros Hv. rewrite !Z_of_byte_of_Z.
  apply Z.bits_inj'. intros i Hi.
  rewrite !Z.lor_spec.
  rewrite (testbit_low_byte v i) by done.
  destruct (decide (i < 8)) as [H8|H8].
  { rewrite !Z.shiftl_spec_low by lia.
    rewrite bool_decide_true by done. simpl. by rewrite !orb_false_r. }
  rewrite (bool_decide_false (i < 8)) by done. simpl.
  rewrite !Z.shiftl_spec by done.
  destruct (decide (i < 16)) as [H16|H16].
  { rewrite (Z.testbit_neg_r _ (i - 16)), (Z.testbit_neg_r _ (i - 24)) by lia.
    rewrite testbit_low_byte, Z.shiftr_spec by lia.
    rewrite bool_decide_true by lia. rewrite !orb_false_r. simpl.
    f_equal. lia. }
  rewrite (testbit_low_byte _ (i - 8)) by lia.
  rewrite (bool_decide_false (i - 8 < 8)) by lia. simpl.
  destruct (decide (i < 24)) as [H24|H24].
  { rewrite (Z.testbit_neg_r _ (i - 24)) by lia.
    rewrite testbit_low_byte, Z.shiftr_spec by lia.
    rewrite bool_decide_true by lia. rewrite !orb_false_r. simpl.
    f_equal. lia. }
  rewrite (testbit_low_byte _ (i - 16)) by lia.
  rewrite (bool_decide_false (i - 16 < 8)) by lia. simpl.
  rewrite testbit_low_byte, Z.shiftr_spec by lia.
  destruct (decide (i < 32)) as [H32|H32].
  - rewrite bool_decide_true by lia. simpl. f_equal. lia.
  - rewrite bool_decide_false by lia. simpl. symmetry. by apply testbit_high; lia.
Qed.

Lemma uint32_range (v : Z) : 0 ≤ uint32 v < 2 ^ 32.
Proof. unfold uint32. apply Z.mod_pos_bound. lia. Qed.

Lemma uint32_small (v : Z) : 0 ≤ v < 2 ^ 32 → uint32 v = v.
Proof. unfold uint32. intros. by apply Z.mod_small. Qed.

Lemma Uint32_bytes_of_uint32 (v : Z) (rest spare : list byte) :
  0 ≤ v < 2 ^ 32 →
  BigEndian.Uint32 (Slice (BigEndian.bytes_of_uint32 v ++ rest) spare) = Returned v.
Proof.
  intros Hv. unfold BigEndian.Uint32, BigEndian.bytes_of_uint32. simpl.
  f_equal. by apply uint32_bytes_value.
Qed.

End Bytes.

(** ** Slices *)

Section Slices.

Implicit Types (e sp new : list byte) (s body : byteslice) (lo hi : Z).

Lemma len_nonneg s : 0 ≤ len s.
Proof. unfold len. lia. Qed.

Lemma len_Slice e sp : len (Slice e sp) = Z.of_nat (length e).
Proof. done. Qed.

Lemma len_le_cap s : len s ≤ cap s.
Proof. unfold cap. lia. Qed.

Lemma make_returns (n : nat) :
  make (Z.of_nat n) = Returned (Slice (replicate n x00) []).
Proof.
  unfold make. rewrite decide_True by lia. by rewrite Nat2Z.id.
Qed.

(** Inside the length, slicing looks at the visible bytes only. *)
Lemma slice_expr_within e sp lo hi :
  0 ≤ lo → lo ≤ hi → hi ≤ Z.of_nat (length e) →
  slice_expr (Slice e sp) lo hi =
    Returned (Slice (take (Z.to_nat (hi - lo)) (drop (Z.to_nat lo) e))
                    (drop (Z.to_nat hi) e ++ sp)).
Proof.
  intros Hlo Hlh Hhi. unfold slice_expr.
  rewrite decide_True by (unfold cap; simpl; rewrite len_Slice; lia).
  f_equal. f_equal.
  - rewrite drop_app, take_app, length_drop.
    replace (Z.to_nat (hi - lo) - (length e - Z.to_nat lo))%nat with 0%nat by lia.
    by rewrite take_0, app_nil_r.
  - rewrite drop_app.
    replace (Z.to_nat hi - length e)%nat with 0%nat by lia. done.
Qed.

Lemma slice_expr_beyond_cap s lo hi :
  cap s < hi → slice_expr s lo hi = Panicked "slice bounds out of range".
Proof. intros. unfold slice_expr. by rewrite decide_False by lia. Qed.

Lemma slice_expr_inverted s lo hi :
  hi < lo → slice_expr s lo hi = Panicked "slice bounds out of range".
Proof. intros. unfold slice_expr. by rewrite decide_False by lia. Qed.

(** copy(dst[lo:], src) when [src] fits. *)
Lemma copy_from_fits e sp lo src :
  0 ≤ lo → lo + len src ≤ Z.of_nat (length e) →
  copy_from (Slice e sp) lo src =
    Returned (Slice (overwrite e (Z.to_nat lo) (contents src)) sp, len src).
Proof.
  intros Hlo Hfit. pose proof (len_nonneg src) as Hsrc.
  unfold copy_from, slice_from. rewrite len_Slice.
  rewrite slice_expr_within by lia. simpl.
  unfold mret, outcome_ret. f_equal.
  rewrite len_Slice, length_take, length_drop.
  assert (Z.of_nat (Z.to_nat (Z.of_nat (length e) - lo)
                    `min` (length e - Z.to_nat lo)) `min` len src = len src)
    as -> by lia.
  unfold len. by rewrite Nat2Z.id, take_ge.
Qed.

Lemma overwrite_head new e :
  overwrite (replicate (length new) x00 ++ e) 0 new = new ++ e.
Proof.
  unfold overwrite. simpl.
  by rewrite drop_app_length' by (by rewrite length_replicate).
Qed.

Lemma overwrite_tail e new :
  overwrite (e ++ replicate (length new) x00) (length e) new = e ++ new.
Proof.
  unfold overwrite.
  rewrite take_app_length.
  rewrite drop_ge by (rewrite length_app, length_replicate; lia).
  by rewrite app_nil_r.
Qed.

End Slices.

(** ** The two functions, step by step *)

Section Codec.

Context {T : Tracer} {G : Gob} {PP : PoolPolicy}.

Implicit Types (e sp : list byte) (body : byteslice) (bfp : Pool) (span : Span).

Lemma getBuf_reset bfp : (getBuf bfp).1 = [].
Proof. unfold getBuf. by destruct (Pool_Get bfp). Qed.

(** What [inject] returns, with the slice operations carried out: they
    never panic. *)
Lemma inject_unfold bfp span body :
  inject bfp span body =
  Returned
    (if decide (TraceID (Context span) = 0%N) then
       ((Slice (frame body []) [], None), bfp)
     else
       let '(carri, err) := tracer_Inject (Context span) ∅ in
       match err with
       | Some e => ((nil_slice, Some e), bfp)
       | None =>
           let '(written, err) := gob_Encode carri in
           match err with
           | Some e => ((nil_slice, Some e), putBuf written (getBuf bfp).2)
           | None =>
               ((Slice (frame body written) [], None),
                putBuf written (getBuf bfp).2)
           end
       end).
Proof.
  unfold inject, copy, frame.
  set (p4 := BigEndian.bytes_of_uint32 (uint32 (len body))).
  assert (length p4 = 4%nat) as Hp4 by done.
  change (make 4) with (Returned (Slice (replicate 4 x00) [])).
  cbn [mbind outcome_bind].
  change (BigEndian.PutUint32 _ _) with (Returned (Slice p4 [])).
  clearbody p4.
  cbn [mbind outcome_bind].
  change (len body) with (Z.of_nat (length (contents body))).
  replace (4 + Z.of_nat (length (contents body)))
    with (Z.of_nat (length p4 + length (contents body))) by lia.
  rewrite make_returns. cbn [mbind outcome_bind].
  rewrite copy_from_fits by (rewrite ?len_Slice, ?length_replicate, ?Hp4; lia).
  cbn [mbind outcome_bind contents].
  rewrite replicate_add. change (Z.to_nat 0) with 0%nat.
  rewrite overwrite_head.
  rewrite copy_from_fits
    by (rewrite ?len_Slice, ?length_app, ?length_replicate, ?Hp4;
        unfold len; lia).
  cbn [mbind outcome_bind].
  rewrite len_Slice, Nat2Z.id, overwrite_tail.
  destruct (decide (TraceID (Context span) = 0%N)) as [Hz|Hnz].
  { by rewrite app_nil_r. }
  destruct (tracer_Inject (Context span) ∅) as [carri [e|]]; [done|].
  pose proof (getBuf_reset bfp) as Hbuf.
  destruct (getBuf bfp) as [buf bfp0]. cbn [fst snd] in *. subst buf.
  cbn [app].
  destruct (gob_Encode carri) as [written [e|]]; [done|].
  rewrite len_Slice.
  set (fr := p4 ++ contents body).
  replace (Z.of_nat (length fr) + Z.of_nat (length written))
    with (Z.of_nat (length fr + length written)) by lia.
  rewrite make_returns. cbn [mbind outcome_bind].
  rewrite copy_from_fits by (rewrite ?len_Slice, ?length_replicate; lia).
  cbn [mbind outcome_bind contents].
  rewrite replicate_add. change (Z.to_nat 0) with 0%nat.
  rewrite overwrite_head.
  assert (Z.of_nat (length p4) + len body = Z.of_nat (length fr)) as ->
    by (unfold fr, len; rewrite length_app; lia).
  rewrite copy_from_fits
    by (rewrite ?len_Slice, ?length_app, ?length_replicate; lia).
  cbn [mbind outcome_bind contents].
  rewrite Nat2Z.id, overwrite_tail. unfold fr. by rewrite <- app_assoc.
Qed.

Lemma Uint32_nonneg (hd : byteslice) (N : Z) :
  BigEndian.Uint32 hd = Returned N → 0 ≤ N.
Proof.
  unfold BigEndian.Uint32.
  destruct (contents hd) as [|b0 [|b1 [|b2 [|b3 ?]]]]; try done.
  intros [= <-].
  pose proof (Z_of_byte_range b0). pose proof (Z_of_byte_range b1).
  pose proof (Z_of_byte_range b2). pose proof (Z_of_byte_range b3).
  rewrite !Z.lor_nonneg, !Z.shiftl_nonneg. lia.
Qed.

Lemma length_prefix_nonneg body (N : Z) :
  length_prefix body = Returned N → 0 ≤ N.
Proof.
  unfold length_prefix. destruct (slice_to body 4) as [hd|]; [|done].
  apply Uint32_nonneg.
Qed.

(** With four bytes or more there is a length prefix to read. *)
Lemma length_prefix_returns body :
  4 ≤ len body → returns (length_prefix body).
Proof.
  intros Hlen. destruct body as [|e sp]; [done|].
  rewrite len_Slice in Hlen.
  unfold length_prefix, slice_to. rewrite slice_expr_within by lia.
  destruct e as [|b0 [|b1 [|b2 [|b3 rest]]]]; simpl in Hlen; try lia.
  by eexists.
Qed.

Lemma length_prefix_frame body (blob sp : list byte) :
  length_prefix (Slice (frame body blob) sp) = Returned (uint32 (len body)).
Proof.
  unfold length_prefix, slice_to, frame.
  rewrite slice_expr_within by (rewrite ?length_app; simpl; lia).
  cbn [mbind outcome_bind]. change (Z.to_nat (4 - 0)) with 4%nat.
  change (Z.to_nat 0) with 0%nat. rewrite drop_0.
  rewrite take_app_length' by done.
  rewrite <- (app_nil_r (BigEndian.bytes_of_uint32 _)).
  apply Uint32_bytes_of_uint32, uint32_range.
Qed.

(** [extract] once the prefix is read. *)
Lemma extract_after_prefix body (N : Z) :
  4 ≤ len body → length_prefix body = Returned N →
  extract body =
    msgbody ← slice_expr body 4 (4 + N);
    if decide (4 + N = len body) then mret (None, msgbody, None)
    else
      tl ← slice_from body (4 + N);
      let '(carri, err) := gob_Decode (contents tl) ∅ in
      match err with
      | Some e => mret (None, body, Some e)
      | None =>
          let '(spnctx, err) := tracer_Extract carri in
          mret (spnctx, msgbody, err)
      end.
Proof.
  intros Hlen Hpre. unfold extract. rewrite decide_False by lia.
  unfold length_prefix in Hpre.
  destruct (slice_to body 4) as [hd|]; [|done].
  cbn [mbind outcome_bind] in *. rewrite Hpre. done.
Qed.

(** The de-framed body: bytes 4 to 4+N of the input. *)
Lemma extract_framed body (N : Z) :
  4 ≤ len body → length_prefix body = Returned N → 4 + N ≤ len body →
  extract body =
    Returned
      (let msgbody :=
         Slice (take (Z.to_nat N) (drop 4 (contents body)))
               (drop (Z.to_nat (4 + N)) (contents body) ++ room body) in
       if decide (4 + N = len body) then (None, msgbody, None)
       else
         let '(carri, err) :=
           gob_Decode (drop (Z.to_nat (4 + N)) (contents body)) ∅ in
         match err with
         | Some e => (None, body, Some e)
         | None =>
             let '(spnctx, err) := tracer_Extract carri in
             (spnctx, msgbody, err)
         end).
Proof.
  intros Hlen Hpre Hfit. pose proof (length_prefix_nonneg _ _ Hpre) as HN.
  rewrite (extract_after_prefix body N) by done.
  destruct body as [|e sp]; [done|]. rewrite len_Slice in *.
  rewrite slice_expr_within by lia. cbn [mbind outcome_bind contents room].
  replace (4 + N - 4) with N by lia. change (Z.to_nat 4) with 4%nat.
  case_decide; [done|].
  unfold slice_from. rewrite len_Slice, slice_expr_within by lia.
  cbn [mbind outcome_bind contents].
  rewrite take_ge by (rewrite length_drop; lia).
  destruct (gob_Decode _ _) as [carri [err|]]; [done|].
  by destruct (tracer_Extract carri).
Qed.

(** A declared length that runs past the input: one of the two slice
    expressions is out of range. *)
Lemma extract_overrun body (N : Z) :
  4 ≤ len body → length_prefix body = Returned N → len body < 4 + N →
  extract body = Panicked "slice bounds out of range".
Proof.
  intros Hlen Hpre Hover.
  rewrite (extract_after_prefix body N) by done.
  unfold slice_expr at 1.
  destruct (decide (0 ≤ 4 ∧ 4 ≤ 4 + N ∧ 4 + N ≤ cap body));
    cbn [mbind outcome_bind]; [|done].
  rewrite decide_False by lia.
  unfold slice_from. by rewrite slice_expr_inverted by lia.
Qed.

(** ** Frames *)

Lemma frame_length body (blob : list byte) :
  Z.of_nat (length (frame body blob)) = 4 + len body + Z.of_nat (length blob).
Proof. unfold frame, len. rewrite !length_app. simpl. lia. Qed.

Lemma frame_body body (blob : list byte) :
  take (Z.to_nat (len body)) (drop 4 (frame body blob)) = contents body.
Proof.
  unfold frame, len. simpl. rewrite Nat2Z.id. apply take_app_length.
Qed.

Lemma frame_blob body (blob : list byte) :
  drop (Z.to_nat (4 + len body)) (frame body blob) = blob.
Proof.
  unfold frame, len.
  replace (Z.to_nat (4 + Z.of_nat (length (contents body))))
    with (4 + length (contents body))%nat by lia.
  simpl. apply drop_app_length.
Qed.

(** A successful [inject] returns a frame; its blob is empty for a zero
    trace identifier and the encoded carrier otherwise. *)
Lemma inject_success_frame bfp span body (framed : byteslice) bfp' :
  inject bfp span body = Returned ((framed, None), bfp') →
  ∃ blob : list byte,
    framed = Slice (frame body blob) [] ∧
    (TraceID (Context span) = 0%N → blob = [] ∧ bfp' = bfp) ∧
    (TraceID (Context span) ≠ 0%N →
     ∃ carri, tracer_Inject (Context span) ∅ = (carri, None) ∧
              gob_Encode carri = (blob, None)).
Proof.
  rewrite inject_unfold. intros [= Hret].
  destruct (decide (TraceID (Context span) = 0%N)) as [Hz|Hnz].
  { simplify_eq. exists []. split_and!; [done|done|]. by intros ?. }
  destruct (tracer_Inject (Context span) ∅) as [carri [e|]] eqn:Hin; [done|].
  destruct (gob_Encode carri) as [written [e|]] eqn:Hen; [done|].
  simplify_eq. exists written. split_and!; [done|done|].
  intros _. by exists carri.
Qed.

(** [extract] on a frame whose body length fits the prefix. *)
Lemma extract_frame body (blob : list byte) :
  len body < 2 ^ 32 →
  extract (Slice (frame body blob) []) =
    Returned
      (let msgbody := Slice (contents body) (blob ++ []) in
       if decide (blob = []) then (None, msgbody, None)
       else
         let '(carri, err) := gob_Decode blob ∅ in
         match err with
         | Some e => (None, Slice (frame body blob) [], Some e)
         | None =>
             let '(spnctx, err) := tracer_Extract carri in
             (spnctx, msgbody, err)
         end).
Proof.
  intros Hsmall. pose proof (len_nonneg body) as Hpos.
  pose proof (frame_length body blob) as Hlen.
  rewrite (extract_framed _ (len body)); cycle 1.
  { rewrite len_Slice. lia. }
  { rewrite length_prefix_frame. by rewrite uint32_small by lia. }
  { rewrite len_Slice. lia. }
  cbn [contents room]. rewrite frame_body, frame_blob, len_Slice.
  cbn zeta. f_equal.
  destruct (decide (blob = [])) as [->|Hblob].
  - rewrite decide_True; [done|]. cbn [length] in Hlen. lia.
  - rewrite decide_False; [done|].
    destruct blob; [done|]. cbn [length] in Hlen. lia.
Qed.

(** A body of 2^32 bytes or more does not come back from the round trip:
    [extract] returns, and what it returns as the body has another
    length. *)
Lemma long_body_not_recovered bfp span body (framed : byteslice) bfp' :
  2 ^ 32 ≤ len body →
  inject bfp span body = Returned ((framed, None), bfp') →
  ∃ (ctx : option SpanContext) (msgbody : byteslice) (err : option error),
    extract framed = Returned (ctx, msgbody, err) ∧ len msgbody ≠ len body.
Proof.
  intros Hlong Hinj.
  apply inject_success_frame in Hinj as (blob & -> & _).
  pose proof (uint32_range (len body)) as HN.
  pose proof (frame_length body blob) as Hlen.
  rewrite (extract_framed _ (uint32 (len body))); cycle 1.
  { rewrite len_Slice. lia. }
  { apply length_prefix_frame. }
  { rewrite len_Slice. lia. }
  cbn zeta. rewrite decide_False by (rewrite len_Slice; lia).
  set (cut := Slice (take _ _) _).
  assert (len cut ≠ len body) as Hcut.
  { unfold cut. rewrite len_Slice, length_take. lia. }
  destruct (gob_Decode _ _) as [carri [e|]].
  - eexists _, _, _. split; [done|]. rewrite len_Slice. lia.
  - destruct (tracer_Extract carri) as [c e]. by eexists _, _, _.
Qed.

End Codec.

(** ** Properties of the codec *)

Section Properties.

Context {T : Tracer} {G : Gob} {PP : PoolPolicy}.

Implicit Types (body framed msgbody : byteslice) (bfp : Pool) (span : Span).
Implicit Types (carri : TextMapCarrier) (blob : list byte) (e : error).

(** C1, as amended: for a span with a non-zero trace identifier and a body
    shorter than 2^32 bytes (the empty body included), when the tracer
    injects the span's context into a carrier, gob encodes the carrier to a
    non-empty blob, and decoding that blob and reconstructing a context
    from it succeed with the span's trace and span identifiers, then
    [extract] of what [inject] returns yields that context, the original
    body and no error. *)
Theorem extract_inject_traced bfp span body carri blob carri'
    (ctx : SpanContext) :
  TraceID (Context span) ≠ 0%N →
  len body < 2 ^ 32 →
  tracer_Inject (Context span) ∅ = (carri, None) →
  gob_Encode carri = (blob, None) →
  blob ≠ [] →
  gob_Decode blob ∅ = (carri', None) →
  tracer_Extract carri' = (Some ctx, None) →
  TraceID ctx = TraceID (Context span) →
  SpanID ctx = SpanID (Context span) →
  ∃ framed bfp' msgbody (ctx' : SpanContext),
    inject bfp span body = Returned ((framed, None), bfp') ∧
    extract framed = Returned (Some ctx', msgbody, None) ∧
    contents msgbody = contents body ∧
    TraceID ctx' = TraceID (Context span) ∧
    SpanID ctx' = SpanID (Context span).
Proof.
  intros Hnz Hsmall Hin Hen Hblob Hde Hex Htid Hsid.
  rewrite inject_unfold, decide_False, Hin, Hen by done.
  eexists _, _, _, ctx. split; [done|].
  rewrite extract_frame by done. cbn zeta.
  rewrite decide_False, Hde, Hex by done. done.
Qed.

(** C2: a declared body length that runs past the input.  [extract] has
    no bounds check before its slice expressions and panics; it returns
    no error. *)
Theorem extract_overrun_panics body (N : Z) :
  4 ≤ len body →
  length_prefix body = Returned N →
  len body < 4 + N →
  extract body = Panicked "slice bounds out of range" ∧ ¬ returns (extract body).
Proof.
  intros Hlen Hpre Hover.
  rewrite (extract_overrun body N) by done.
  split; [done|]. by intros [r ?].
Qed.

(** C3, as amended: for a span whose trace identifier is zero, [inject]
    never fails and returns exactly the 4-byte prefix and the body, 4 +
    len(b) bytes, with no context blob; and when the body is shorter than
    2^32 bytes [extract] of that output yields no context, the original
    body and no error. *)
Theorem inject_extract_untraced bfp span body :
  TraceID (Context span) = 0%N →
  ∃ framed,
    inject bfp span body = Returned ((framed, None), bfp) ∧
    contents framed = frame body [] ∧
    len framed = 4 + len body ∧
    (len body < 2 ^ 32 →
     ∃ msgbody,
       extract framed = Returned (None, msgbody, None) ∧
       contents msgbody = contents body).
Proof.
  intros Hz. rewrite inject_unfold, decide_True by done.
  eexists. split_and!; [done|done| |].
  - rewrite len_Slice, frame_length. cbn [length]. lia.
  - intros Hsmall. rewrite extract_frame by done. cbn zeta.
    rewrite decide_True by done. by eexists.
Qed.

(** C4: when the input is longer than 4 plus the declared body length and
    the trailing bytes do not decode as a carrier, [extract] returns the
    decoder's error together with the whole input as the body. *)
Theorem extract_bad_carrier_returns_input body (N : Z) carri e :
  length_prefix body = Returned N →
  4 + N < len body →
  gob_Decode (drop (Z.to_nat (4 + N)) (contents body)) ∅ = (carri, Some e) →
  extract body = Returned (None, body, Some e).
Proof.
  intros Hpre Hlong Hde.
  pose proof (length_prefix_nonneg _ _ Hpre).
  rewrite (extract_framed body N) by (done || lia). cbn zeta.
  by rewrite decide_False, Hde by lia.
Qed.

(** C5: an input of length 0, 1, 2 or 3 is rejected with an error, a nil
    body and a nil context. *)
Theorem extract_too_short body :
  len body < 4 →
  extract body =
    Returned (None, nil_slice,
              Some (errors_New "length of message body is too small")).
Proof. intros Hlen. unfold extract. by rewrite decide_True. Qed.

(** C6, as amended: when [inject] succeeds its output is the big-endian
    uint32 of len(b) modulo 2^32, then the bytes of b, then the context
    blob (empty for a zero trace identifier, the gob encoding of the
    injected carrier otherwise); for a body shorter than 2^32 bytes the
    prefix reads back as len(b); for the body "hello, world" the output
    is [0,0,0,12], the body and the blob. *)
Theorem inject_layout bfp span body framed bfp' :
  inject bfp span body = Returned ((framed, None), bfp') →
  ∃ blob,
    contents framed =
      BigEndian.bytes_of_uint32 (len body `mod` 2 ^ 32) ++ contents body ++ blob ∧
    (len body < 2 ^ 32 → length_prefix framed = Returned (len body)) ∧
    (TraceID (Context span) = 0%N → blob = []) ∧
    (TraceID (Context span) ≠ 0%N →
     ∃ carri, tracer_Inject (Context span) ∅ = (carri, None) ∧
              gob_Encode carri = (blob, None)) ∧
    (contents body = String.list_byte_of_string "hello, world" →
     contents framed =
       [x00; x00; x00; x0c] ++ String.list_byte_of_string "hello, world" ++ blob).
Proof.
  intros Hinj. apply inject_success_frame in Hinj as (blob & -> & Hz & Hnz).
  exists blob. split_and!; [done| | |done|].
  - intros Hsmall. rewrite length_prefix_frame.
    by rewrite uint32_small by (pose proof (len_nonneg body); lia).
  - intros Hzero. by destruct (Hz Hzero).
  - intros Hbody. cbn [contents]. unfold frame, len. by rewrite Hbody.
Qed.

(** C7: for a span with a non-zero trace identifier, if injecting the
    context into the carrier fails, or encoding the carrier fails,
    [inject] returns that error and a nil slice: no frame at all. *)
Theorem inject_serialization_failure bfp span body e :
  TraceID (Context span) ≠ 0%N →
  (∃ carri, tracer_Inject (Context span) ∅ = (carri, Some e)) ∨
  (∃ carri written,
     tracer_Inject (Context span) ∅ = (carri, None) ∧
     gob_Encode carri = (written, Some e)) →
  ∃ bfp', inject bfp span body = Returned ((nil_slice, Some e), bfp').
Proof.
  intros Hnz Hfail. rewrite inject_unfold, decide_False by done.
  destruct Hfail as [[carri Hin]|(carri & written & Hin & Hen)].
  - rewrite Hin. by eexists.
  - rewrite Hin, Hen. by eexists.
Qed.

(** C8: when the trailing bytes decode as a carrier and reconstructing a
    context from it fails, [extract] returns no context, the de-framed
    body (bytes 4 to 4+N of the input) and the reconstruction error. *)
Theorem extract_reconstruction_failure body (N : Z) carri e :
  length_prefix body = Returned N →
  4 + N < len body →
  gob_Decode (drop (Z.to_nat (4 + N)) (contents body)) ∅ = (carri, None) →
  tracer_Extract carri = (None, Some e) →
  ∃ msgbody,
    extract body = Returned (None, msgbody, Some e) ∧
    contents msgbody = take (Z.to_nat N) (drop 4 (contents body)) ∧
    len msgbody = N.
Proof.
  intros Hpre Hlong Hde Hex.
  pose proof (length_prefix_nonneg _ _ Hpre).
  rewrite (extract_framed body N) by (done || lia). cbn zeta.
  rewrite decide_False, Hde, Hex by lia.
  eexists. split_and!; [done|done|].
  rewrite len_Slice, length_take, length_drop. unfold len in Hlong. lia.
Qed.

(** C9: with a zero trace identifier the output of [inject] depends on the
    body only: two calls, whatever the spans and the state of the buffer
    pool, return the same bytes. *)
Theorem inject_untraced_deterministic bfp1 bfp2 span1 span2 body :
  TraceID (Context span1) = 0%N →
  TraceID (Context span2) = 0%N →
  ∃ framed,
    inject bfp1 span1 body = Returned ((framed, None), bfp1) ∧
    inject bfp2 span2 body = Returned ((framed, None), bfp2) ∧
    contents framed = frame body [].
Proof.
  intros Hz1 Hz2. rewrite !inject_unfold, !decide_True by done.
  by eexists.
Qed.

(** C10, as amended: the prefix [inject] writes is len(body) modulo 2^32.
    For a body shorter than 2^32 bytes it is the body length.  For a body
    of 2^32 bytes or more it is smaller than the body length; the frame
    is then strictly longer than 4 plus the prefix; the prefix delimits
    only the first bytes of the true body, and the bytes that follow
    offset 4 plus the prefix are the rest of the true body; [extract] of
    the frame returns a body that is not the original one. *)
Theorem inject_length_prefix_wraps bfp span body framed bfp' :
  inject bfp span body = Returned ((framed, None), bfp') →
  length_prefix framed = Returned (len body `mod` 2 ^ 32) ∧
  (len body < 2 ^ 32 → length_prefix framed = Returned (len body)) ∧
  (2 ^ 32 ≤ len body →
   len body `mod` 2 ^ 32 < len body ∧
   4 + len body `mod` 2 ^ 32 < len framed ∧
   take (Z.to_nat (len body `mod` 2 ^ 32)) (drop 4 (contents framed)) =
     take (Z.to_nat (len body `mod` 2 ^ 32)) (contents body) ∧
   take (Z.to_nat (len body - len body `mod` 2 ^ 32))
        (drop (Z.to_nat (4 + len body `mod` 2 ^ 32)) (contents framed)) =
     drop (Z.to_nat (len body `mod` 2 ^ 32)) (contents body) ∧
   ∃ (ctx : option SpanContext) msgbody (err : option error),
     extract framed = Returned (ctx, msgbody, err) ∧
     contents msgbody ≠ contents body).
Proof.
  intros Hinj.
  pose proof (len_nonneg body) as Hpos.
  pose proof (uint32_range (len body)) as HN. unfold uint32 in HN.
  split_and!.
  - apply inject_success_frame in Hinj as (blob & -> & _).
    apply length_prefix_frame.
  - intros Hsmall. apply inject_success_frame in Hinj as (blob & -> & _).
    rewrite length_prefix_frame. by rewrite uint32_small by lia.
  - intros Hlong.
    destruct (long_body_not_recovered _ _ _ _ _ Hlong Hinj)
      as (ctx & msgbody & err & Hext & Hne).
    apply inject_success_frame in Hinj as (blob & -> & _).
    assert (drop 4 (contents (Slice (frame body blob) [])) = contents body ++ blob)
      as Hrest by done.
    split_and!.
    + lia.
    + rewrite len_Slice, frame_length. lia.
    + rewrite Hrest. apply take_app_le. unfold len in *. lia.
    + replace (Z.to_nat (4 + len body `mod` 2 ^ 32))
        with (4 + Z.to_nat (len body `mod` 2 ^ 32))%nat by lia.
      rewrite <- drop_drop, Hrest.
      rewrite drop_app_le by (unfold len in *; lia).
      apply take_app_length'. rewrite length_drop. unfold len in *. lia.
    + exists ctx, msgbody, err. split; [done|].
      intros Heq. apply Hne. unfold len. by rewrite Heq.
Qed.

End Properties.

(** ** The codec on concrete inputs *)

Import Mock.

Lemma huge_body_len : len huge_body = 2 ^ 32.
Proof.
  unfold huge_body. rewrite len_Slice, length_replicate. lia.
Qed.

(** body = "", trace identifier 0: the frame is [0,0,0,0] and decodes to
    no context and the empty body. *)
Example inject_empty_untraced :
  inject (T:=mock_tracer) (G:=mock_gob) [] untraced (bytes "") =
    Returned ((Slice [x00; x00; x00; x00] [], None), []).
Proof. reflexivity. Qed.

Example extract_empty_frame :
  extract (T:=mock_tracer) (G:=mock_gob) (Slice [x00; x00; x00; x00] []) =
    Returned (None, Slice [] [], None).
Proof. reflexivity. Qed.

(** TestInject of utils_test.go, on the test doubles. *)
Example test_inject :
  (r ← inject (T:=mock_tracer) (G:=mock_gob) [] traced (bytes "test data");
   extract r.1.1) =
  Returned (Some {| trace_id := 7; span_id := 9; baggage := [] |},
            Slice (String.list_byte_of_string "test data")
                  (mock_Encode (mock_Inject (span_ctx traced) ∅).1).1,
            None).
Proof. vm_compute. reflexivity. Qed.

Example inject_unencodable :
  inject (T:=mock_tracer) (G:=mock_gob) [] unencodable (bytes "x") =
    Returned ((nil_slice, Some "gob: unencodable string"), [[]]).
Proof. vm_compute. reflexivity. Qed.

(** Spare capacity behind the input does not save the second slice
    expression: body[4+bs:] is out of range. *)
Example extract_overrun_within_capacity :
  extract (T:=mock_tracer) (G:=mock_gob)
    (Slice [x00; x00; x00; x02; x01] [x00; x00; x00]) =
    Panicked "slice bounds out of range".
Proof. reflexivity. Qed.

(** ** Instances of the properties *)

Lemma extract_inject_traced_witness :
  ∃ framed bfp' msgbody (ctx' : span_context),
    inject (T:=mock_tracer) (G:=mock_gob) [] traced (bytes "test data") =
      Returned ((framed, None), bfp') ∧
    extract (T:=mock_tracer) (G:=mock_gob) framed =
      Returned (Some ctx', msgbody, None) ∧
    contents msgbody = contents (bytes "test data") ∧
    trace_id ctx' = 7%N ∧ span_id ctx' = 9%N.
Proof.
  eapply (extract_inject_traced (T:=mock_tracer) (G:=mock_gob)
            [] traced (bytes "test data")).
  - by vm_compute.
  - by vm_compute.
  - reflexivity.
  - reflexivity.
  - by vm_compute.
  - vm_compute. reflexivity.
  - vm_compute. reflexivity.
  - reflexivity.
  - reflexivity.
Defined.

Lemma extract_overrun_panics_witness :
  4 ≤ len (Slice [x00; x00; x00; x05; x01] []) ∧
  length_prefix (Slice [x00; x00; x00; x05; x01] []) = Returned 5 ∧
  len (Slice [x00; x00; x00; x05; x01] []) < 4 + 5 ∧
  extract (T:=mock_tracer) (G:=mock_gob) (Slice [x00; x00; x00; x05; x01] []) =
    Panicked "slice bounds out of range" ∧
  ¬ returns (extract (T:=mock_tracer) (G:=mock_gob)
               (Slice [x00; x00; x00; x05; x01] [])).
Proof.
  split_and!; [by vm_compute|reflexivity|by vm_compute|..];
    apply (extract_overrun_panics (T:=mock_tracer) (G:=mock_gob)
             (Slice [x00; x00; x00; x05; x01] []) 5);
    by vm_compute.
Defined.

Lemma inject_extract_untraced_witness :
  ∃ framed,
    inject (T:=mock_tracer) (G:=mock_gob) [] untraced (bytes "hello") =
      Returned ((framed, None), []) ∧
    contents framed = frame (bytes "hello") [] ∧
    len framed = 4 + len (bytes "hello") ∧
    (len (bytes "hello") < 2 ^ 32 →
     ∃ msgbody,
       extract (T:=mock_tracer) (G:=mock_gob) framed =
         Returned (None, msgbody, None) ∧
       contents msgbody = contents (bytes "hello")).
Proof.
  apply (inject_extract_untraced (T:=mock_tracer) (G:=mock_gob)
           [] untraced (bytes "hello")).
  reflexivity.
Defined.

Lemma extract_bad_carrier_returns_input_witness :
  extract (T:=mock_tracer) (G:=mock_gob)
    (Slice [x00; x00; x00; x01; x01; x02] []) =
    Returned (None, Slice [x00; x00; x00; x01; x01; x02] [],
              Some "gob: unexpected EOF"%string).
Proof.
  apply (extract_bad_carrier_returns_input (T:=mock_tracer) (G:=mock_gob)
           (Slice [x00; x00; x00; x01; x01; x02] []) 1 ∅).
  - reflexivity.
  - by vm_compute.
  - reflexivity.
Defined.

Lemma extract_too_short_witness :
  len (Slice [x01; x02; x03] []) < 4 ∧
  extract (T:=mock_tracer) (G:=mock_gob) (Slice [x01; x02; x03] []) =
    Returned (None, nil_slice,
              Some (errors_New "length of message body is too small")).
Proof.
  split; [by vm_compute|].
  apply (extract_too_short (T:=mock_tracer) (G:=mock_gob)).
  by vm_compute.
Defined.

Lemma inject_layout_witness :
  ∃ framed bfp',
    inject (T:=mock_tracer) (G:=mock_gob) [] traced (bytes "hello, world") =
      Returned ((framed, None), bfp') ∧
    ∃ blob,
      contents framed =
        [x00; x00; x00; x0c] ++ String.list_byte_of_string "hello, world" ++ blob ∧
      gob_Encode (tracer_Inject (Context traced) ∅).1 = (blob, None).
Proof.
  eexists _, _. split; [vm_compute; reflexivity|].
  edestruct (inject_layout (T:=mock_tracer) (G:=mock_gob)
               [] traced (bytes "hello, world"))
    as (blob & _ & _ & _ & Hblob & Hscenario).
  { vm_compute. reflexivity. }
  exists blob. split; [by apply Hscenario|].
  destruct Hblob as (carri & Hin & Hen); [by vm_compute|].
  by rewrite Hin.
Defined.

Lemma inject_serialization_failure_witness :
  ∃ bfp',
    inject (T:=mock_tracer) (G:=mock_gob) [] parentless (bytes "hello") =
      Returned ((nil_slice, Some "invalid span context"%string), bfp').
Proof.
  apply (inject_serialization_failure (T:=mock_tracer) (G:=mock_gob)).
  - by vm_compute.
  - left. exists ∅. reflexivity.
Defined.

Lemma extract_reconstruction_failure_witness :
  ∃ msgbody,
    extract (T:=mock_tracer) (G:=mock_gob)
      (Slice [x00; x00; x00; x01; x2a; x6b; x00; x76; x00] []) =
      Returned (None, msgbody, Some "span context not found"%string) ∧
    contents msgbody =
      take (Z.to_nat 1) (drop 4 [x00; x00; x00; x01; x2a; x6b; x00; x76; x00]) ∧
    len msgbody = 1.
Proof.
  eapply (extract_reconstruction_failure (T:=mock_tracer) (G:=mock_gob)
            (Slice [x00; x00; x00; x01; x2a; x6b; x00; x76; x00] []) 1).
  - reflexivity.
  - by vm_compute.
  - reflexivity.
  - vm_compute. reflexivity.
Defined.

Lemma inject_untraced_deterministic_witness :
  ∃ framed,
    inject (T:=mock_tracer) (G:=mock_gob) [] untraced (bytes "hello") =
      Returned ((framed, None), []) ∧
    inject (T:=mock_tracer) (G:=mock_gob) [[x01]] untraced' (bytes "hello") =
      Returned ((framed, None), [[x01]]) ∧
    contents framed = frame (bytes "hello") [].
Proof.
  apply (inject_untraced_deterministic (T:=mock_tracer) (G:=mock_gob)
           [] [[x01]] untraced untraced' (bytes "hello"));
    reflexivity.
Defined.

Lemma inject_length_prefix_wraps_witness :
  2 ^ 32 ≤ len huge_body ∧
  inject (T:=mock_tracer) (G:=mock_gob) [] untraced huge_body =
    Returned ((Slice (frame huge_body []) [], None), []) ∧
  length_prefix (Slice (frame huge_body []) []) =
    Returned (len huge_body `mod` 2 ^ 32) ∧
  len huge_body `mod` 2 ^ 32 < len huge_body ∧
  4 + len huge_body `mod` 2 ^ 32 < len (Slice (frame huge_body []) []) ∧
  take (Z.to_nat (len huge_body `mod` 2 ^ 32))
       (drop 4 (contents (Slice (frame huge_body []) []))) =
    take (Z.to_nat (len huge_body `mod` 2 ^ 32)) (contents huge_body) ∧
  take (Z.to_nat (len huge_body - len huge_body `mod` 2 ^ 32))
       (drop (Z.to_nat (4 + len huge_body `mod` 2 ^ 32))
          (contents (Slice (frame huge_body []) []))) =
    drop (Z.to_nat (len huge_body `mod` 2 ^ 32)) (contents huge_body) ∧
  ∃ (ctx : option span_context) msgbody (err : option error),
    extract (T:=mock_tracer) (G:=mock_gob) (Slice (frame huge_body []) []) =
      Returned (ctx, msgbody, err) ∧
    contents msgbody ≠ contents huge_body.
Proof.
  assert (2 ^ 32 ≤ len huge_body) as Hlong by (rewrite huge_body_len; lia).
  assert (inject (T:=mock_tracer) (G:=mock_gob) [] untraced huge_body =
            Returned ((Slice (frame huge_body []) [], None), [])) as Hinj
    by (by rewrite inject_unfold, decide_True).
  destruct (inject_length_prefix_wraps (T:=mock_tracer) (G:=mock_gob)
              [] untraced huge_body (Slice (frame huge_body []) []) [] Hinj)
    as (Hmod & _ & Hwrap).
  destruct (Hwrap Hlong) as (Hlt & Hlen & Hhead & Htail & Hext).
  exact (conj Hlong (conj Hinj (conj Hmod (conj Hlt (conj Hlen
           (conj Hhead (conj Htail Hext))))))).
Defined.

(** ** The limit of the 4-byte prefix: a body of 2^32 bytes *)

(** C1 as stated, for every body: false at a body of 2^32 bytes.  The
    prefix written is 0, so [extract] takes the body for part of the
    blob. *)
Lemma traced_round_trip_fails_on_huge_body :
  ¬ ∃ framed bfp' msgbody (ctx' : span_context),
      inject (T:=mock_tracer) (G:=mock_gob) [] traced huge_body =
        Returned ((framed, None), bfp') ∧
      extract (T:=mock_tracer) (G:=mock_gob) framed =
        Returned (Some ctx', msgbody, None) ∧
      contents msgbody = contents huge_body ∧
      trace_id ctx' = trace_id (span_ctx traced) ∧
      span_id ctx' = span_id (span_ctx traced).
Proof.
  intros (framed & bfp' & msgbody & ctx' & Hinj & Hext & Hbody & _).
  destruct (long_body_not_recovered (T:=mock_tracer) (G:=mock_gob)
              [] traced huge_body framed bfp')
    as (c & m & e & Hext' & Hne); [by rewrite huge_body_len|done|].
  rewrite Hext in Hext'. injection Hext' as _ <- _.
  apply Hne. unfold len. by rewrite Hbody.
Qed.

(** C3 as stated, for every body: false at a body of 2^32 bytes. *)
Lemma untraced_round_trip_fails_on_huge_body :
  ¬ ∃ framed,
      inject (T:=mock_tracer) (G:=mock_gob) [] untraced huge_body =
        Returned ((framed, None), []) ∧
      len framed = 4 + len huge_body ∧
      ∃ msgbody,
        extract (T:=mock_tracer) (G:=mock_gob) framed =
          Returned (None, msgbody, None) ∧
        contents msgbody = contents huge_body.
Proof.
  intros (framed & Hinj & _ & msgbody & Hext & Hbody).
  destruct (long_body_not_recovered (T:=mock_tracer) (G:=mock_gob)
              [] untraced huge_body framed [])
    as (c & m & e & Hext' & Hne); [by rewrite huge_body_len|done|].
  rewrite Hext in Hext'. injection Hext' as _ <- _.
  apply Hne. unfold len. by rewrite Hbody.
Qed.

(** C6 as stated, for every body: at a body of 2^32 bytes the prefix
    written is 0, not the body length. *)
Lemma prefix_is_not_length_of_huge_body :
  ¬ ∀ framed bfp',
      inject (T:=mock_tracer) (G:=mock_gob) [] untraced huge_body =
        Returned ((framed, None), bfp') →
      length_prefix framed = Returned (len huge_body).
Proof.
  intros Hclaim.
  specialize (Hclaim (Slice (frame huge_body []) []) []).
  rewrite inject_unfold, decide_True in Hclaim by done.
  specialize (Hclaim eq_refl).
  rewrite length_prefix_frame, huge_body_len in Hclaim.
  injection Hclaim as Hclaim. by vm_compute in Hclaim.
Qed.

(** C10 as stated: a body of 2^32 bytes or more is said to break
    len(frame) >= 4 + prefix.  At a body of 2^32 bytes the prefix is 0 and
    the inequality holds. *)
Lemma huge_frame_is_longer_than_its_prefix :
  ¬ ∀ framed bfp' (N : Z),
      2 ^ 32 ≤ len huge_body →
      inject (T:=mock_tracer) (G:=mock_gob) [] untraced huge_body =
        Returned ((framed, None), bfp') →
      length_prefix framed = Returned N →
      ¬ (4 + N ≤ len framed).
Proof.
  intros Hclaim.
  apply (Hclaim (Slice (frame huge_body []) []) [] (uint32 (len huge_body))).
  - by rewrite huge_body_len.
  - by rewrite inject_unfold, decide_True.
  - apply length_prefix_frame.
  - pose proof (uint32_range (len huge_body)).
    rewrite len_Slice, frame_length, huge_body_len in *. lia.
Qed.

(** * Further properties of utils.go *)

Section Utils.

Context {T : Tracer} {G : Gob} {PP : PoolPolicy}.

Implicit Types (body framed msgbody : byteslice) (bfp : Pool) (span : Span).
Implicit Types (carri : TextMapCarrier) (blob : list byte) (e : error).

(** [inject] never panics, and the slice and the error it returns do not
    depend on the buffer pool: a pooled buffer is reset before it is used,
    so bytes left by an earlier call never reach the output. *)
Theorem inject_independent_of_pool bfp1 bfp2 span body :
  ∃ out bfp1' bfp2',
    inject bfp1 span body = Returned (out, bfp1') ∧
    inject bfp2 span body = Returned (out, bfp2').
Proof.
  rewrite !inject_unfold.
  destruct (decide (TraceID (Context span) = 0%N)); [by eexists _, _, _|].
  destruct (tracer_Inject (Context span) ∅) as [carri [e|]];
    [by eexists _, _, _|].
  destruct (gob_Encode carri) as [written [e|]]; by eexists _, _, _.
Qed.

Lemma length_prefix_ignores_room (e sp1 sp2 : list byte) :
  4 ≤ len (Slice e sp1) →
  length_prefix (Slice e sp1) = length_prefix (Slice e sp2).
Proof.
  rewrite len_Slice. intros Hlen. unfold length_prefix, slice_to.
  rewrite !slice_expr_within by lia. done.
Qed.

(** [extract] returns exactly on the inputs that are shorter than four
    bytes (with an error) or at least as long as their prefix declares;
    on every other input it panics. *)
Theorem extract_returns_iff body :
  returns (extract body) ↔
  len body < 4 ∨ ∃ N, length_prefix body = Returned N ∧ 4 + N ≤ len body.
Proof.
  split.
  - intros [r Hr]. destruct (decide (len body < 4)) as [|Hlen]; [by left|].
    right. destruct (length_prefix_returns body) as [N HN]; [lia|].
    exists N. split; [done|].
    destruct (decide (4 + N ≤ len body)) as [|Hover]; [done|].
    rewrite (extract_overrun body N) in Hr by (done || lia). done.
  - intros Hok. destruct (decide (len body < 4)) as [Hshort|Hlen].
    { rewrite extract_too_short by done. by eexists. }
    destruct Hok as [|(N & HN & Hfit)]; [lia|].
    rewrite (extract_framed body N) by (done || lia). by eexists.
Qed.

(** An input that ends where its prefix says the body ends carries no
    context: [extract] returns the bytes after the prefix, no context and
    no error, without consulting the decoder or the tracer. *)
Theorem extract_without_blob body (N : Z) :
  length_prefix body = Returned N →
  4 + N = len body →
  ∃ msgbody,
    extract body = Returned (None, msgbody, None) ∧
    contents msgbody = drop 4 (contents body).
Proof.
  intros Hpre Hexact. pose proof (length_prefix_nonneg _ _ Hpre).
  rewrite (extract_framed body N) by (done || lia). cbn zeta.
  rewrite decide_True by done. eexists. split; [done|].
  cbn [contents]. apply take_ge. rewrite length_drop. unfold len in Hexact. lia.
Qed.

(** An input with bytes after the declared body: when they decode as a
    carrier, [extract] returns bytes 4 to 4+N as the body together with
    whatever context and error [tracer.Extract] gives for that carrier. *)
Theorem extract_with_blob body (N : Z) carri
    (spnctx : option SpanContext) (err : option error) :
  length_prefix body = Returned N →
  4 + N < len body →
  gob_Decode (drop (Z.to_nat (4 + N)) (contents body)) ∅ = (carri, None) →
  tracer_Extract carri = (spnctx, err) →
  ∃ msgbody,
    extract body = Returned (spnctx, msgbody, err) ∧
    contents msgbody = take (Z.to_nat N) (drop 4 (contents body)) ∧
    len msgbody = N.
Proof.
  intros Hpre Hlong Hde Hex. pose proof (length_prefix_nonneg _ _ Hpre).
  rewrite (extract_framed body N) by (done || lia). cbn zeta.
  rewrite decide_False, Hde, Hex by lia.
  eexists. split_and!; [done|done|].
  rewrite len_Slice, length_take, length_drop. unfold len in Hlong. lia.
Qed.


(** Frames decode uniquely: two successful calls of [inject] on bodies
    shorter than 2^32 bytes that return the same bytes were given the same
    body. *)
Theorem inject_frames_decode_uniquely bfp1 bfp2 span1 span2 body1 body2
    framed1 framed2 bfp1' bfp2' :
  inject bfp1 span1 body1 = Returned ((framed1, None), bfp1') →
  inject bfp2 span2 body2 = Returned ((framed2, None), bfp2') →
  len body1 < 2 ^ 32 → len body2 < 2 ^ 32 →
  contents framed1 = contents framed2 →
  contents body1 = contents body2.
Proof.
  intros Hinj1 Hinj2 Hs1 Hs2 Heq.
  apply inject_success_frame in Hinj1 as (blob1 & -> & _).
  apply inject_success_frame in Hinj2 as (blob2 & -> & _).
  cbn [contents] in Heq.
  pose proof (length_prefix_frame body1 blob1 []) as Hp1.
  pose proof (length_prefix_frame body2 blob2 []) as Hp2.
  rewrite Heq, Hp2 in Hp1. injection Hp1 as Hlen.
  pose proof (len_nonneg body1). pose proof (len_nonneg body2).
  rewrite !uint32_small in Hlen by lia.
  rewrite <- (frame_body body1 blob1), <- (frame_body body2 blob2).
  by rewrite Heq, Hlen.
Qed.

Lemma wrap_int_small (v : Z) : - 2 ^ 63 ≤ v < 2 ^ 63 → wrap_int v = v.
Proof. intros Hv. unfold wrap_int. rewrite Z.mod_small; lia. Qed.

Lemma wrap_int_add_l (a b : Z) : wrap_int (wrap_int a + b) = wrap_int (a + b).
Proof.
  unfold wrap_int.
  replace ((a + 2 ^ 63) `mod` 2 ^ 64 - 2 ^ 63 + b + 2 ^ 63)
    with ((a + 2 ^ 63) `mod` 2 ^ 64 + b) by lia.
  rewrite Z.add_mod_idemp_l by lia. do 2 f_equal. lia.
Qed.

Lemma wrap_int_add_r (a b : Z) : wrap_int (a + wrap_int b) = wrap_int (a + b).
Proof. by rewrite (Z.add_comm a), wrap_int_add_l, (Z.add_comm b). Qed.

(** The loop of [bodySize] from an accumulator on. *)
Lemma bodySize_loop (acc : Z) (body : list byteslice) :
  foldl (λ size b, int_add size (len b)) acc body =
    wrap_int (acc + Z.of_nat (length (concat (contents <$> body)))) ∨
  body = [] ∧ foldl (λ size b, int_add size (len b)) acc body = acc.
Proof.
  revert acc. induction body as [|b body IH]; intros acc; [by right|left].
  cbn [foldl]. rewrite fmap_cons. cbn [concat]. rewrite length_app.
  destruct (IH (int_add acc (len b))) as [->|[-> ->]].
  - unfold int_add. rewrite wrap_int_add_l. f_equal. unfold len. lia.
  - unfold int_add, len. cbn. f_equal. lia.
Qed.

Lemma bodySize_wrap (body : list byteslice) :
  bodySize body = wrap_int (Z.of_nat (length (concat (contents <$> body)))).
Proof.
  unfold bodySize. destruct (bodySize_loop 0 body) as [->|[-> ->]]; [|done].
  by rewrite Z.add_0_l.
Qed.

(** [bodySize] is the number of bytes of the bodies laid end to end, as
    an int: wrapped around when the bodies, which may share their bytes,
    add up to 2^63 bytes or more, and exact below that. *)
Theorem bodySize_concat (body : list byteslice) :
  bodySize body = wrap_int (Z.of_nat (length (concat (contents <$> body)))) ∧
  (Z.of_nat (length (concat (contents <$> body))) < 2 ^ 63 →
   bodySize body = Z.of_nat (length (concat (contents <$> body)))).
Proof.
  unfold bodySize. destruct (bodySize_loop 0 body) as [Hloop|[-> Hloop]].
  - rewrite Hloop, Z.add_0_l. split; [done|].
    intros Hsmall. apply wrap_int_small. lia.
  - by rewrite Hloop.
Qed.

(** [bodySize] adds up over appended batches, with the addition of ints,
    and does not depend on the order of the bodies. *)
Theorem bodySize_app_perm (body1 body2 body' : list byteslice) :
  body1 ++ body2 ≡ₚ body' →
  bodySize body' = int_add (bodySize body1) (bodySize body2).
Proof.
  intros Hperm. rewrite !bodySize_wrap. unfold int_add.
  rewrite wrap_int_add_l, wrap_int_add_r.
  rewrite <- Nat2Z.inj_add, <- length_app, <- concat_app, <- fmap_app.
  do 2 f_equal. clear T G PP.
  induction Hperm as [|b l l' _ IH|b1 b2 l|l l' l'' _ IH1 _ IH2].
  - done.
  - rewrite !fmap_cons. cbn [concat]. rewrite !length_app. lia.
  - rewrite !fmap_cons. cbn [concat]. rewrite !length_app. lia.
  - lia.
Qed.

End Utils.

(** * option.go and producer.go: how a producer is configured *)

Section OptionsProperties.

Import Options.

Context {E : Env}.

Implicit Types (cfg : config) (l : list setting).

Lemma options_fold cfg l :
  let cfg' := foldl (λ cfg opt, opt cfg) cfg (option_of <$> l) in
  service cfg' = default (service cfg) (last (omap service_of l)) ∧
  analyticsRate cfg' = default (analyticsRate cfg) (last (omap rate_of l)) ∧
  ctx cfg' = default (ctx cfg) (last (omap context_of l)).
Proof.
  induction l as [|s l IH] using rev_ind; [done|].
  rewrite fmap_app, foldl_app, !omap_app. cbn zeta in *. simpl.
  destruct IH as (IHs & IHr & IHc).
  destruct s as [service|rate|c]; simpl; rewrite ?app_nil_r, ?last_snoc; simpl.
  - done.
  - unfold WithAnalyticsRate. by destruct (is_nan rate).
  - done.
Qed.

(** The configuration [NewProducer] gives a producer: for each field the
    last option that sets it wins, and a field no option sets keeps the
    value of [defaultConfig]: service "nsq", analytics rate 1 or NaN by
    DD_TRACE_ANALYTICS_ENABLED, the background context.  A NaN rate is
    stored as math.NaN(). *)
Theorem NewProducer_last_option_wins (addr : string) (conf : nsq_Config)
    (prodc : option nsq_Producer) l :
  nsq_NewProducer addr conf = (prodc, None) →
  ∃ cfg,
    NewProducer addr conf (option_of <$> l) =
      (Some {| Producer_Producer := prodc; Producer_cfg := cfg |}, None) ∧
    service cfg = default "nsq" (last (omap service_of l)) ∧
    analyticsRate cfg =
      default (if internal_BoolEnv "DD_TRACE_ANALYTICS_ENABLED" false
               then 1%float else nan)
              (last (omap rate_of l)) ∧
    ctx cfg = default (Some context_Background) (last (omap context_of l)).
Proof.
  intros Hnew. unfold NewProducer. rewrite Hnew. cbn zeta.
  eexists. split; [done|].
  destruct (options_fold (defaultConfig zero_config) l) as (Hs & Hr & Hc).
  rewrite Hs, Hr, Hc. unfold defaultConfig.
  by destruct (internal_BoolEnv _ _).
Qed.

(** The span a producer starts: its service name is the configured
    service, its resource the topic, and it carries the sample-rate tag
    exactly when the configured analytics rate is not NaN, that is when a
    non-NaN [WithAnalyticsRate] is the last one given, or none is given
    and DD_TRACE_ANALYTICS_ENABLED is set. *)
Theorem startSpan_of_configured_producer (addr : string) (conf : nsq_Config)
    (prodc : Producer) l (topic operation : string) :
  NewProducer addr conf (option_of <$> l) = (Some prodc, None) →
  let rate :=
    default (if internal_BoolEnv "DD_TRACE_ANALYTICS_ENABLED" false
             then 1%float else nan)
            (last (omap rate_of l)) in
  startSpan_call prodc topic operation =
    (default (Some context_Background) (last (omap context_of l)),
     operation,
     [tracer_SpanType ext_SpanTypeMessageProducer;
      tracer_ServiceName (default "nsq" (last (omap service_of l)));
      tracer_ResourceName topic]
     ++ (if is_nan rate then [] else [tracer_Tag ext_EventSampleRate rate])).
Proof.
  intros Hnew rate. unfold NewProducer in Hnew.
  destruct (nsq_NewProducer addr conf) as [np [e|]]; [done|].
  cbn zeta in Hnew. injection Hnew as <-.
  destruct (options_fold (defaultConfig zero_config) l) as (Hs & Hr & Hc).
  unfold startSpan_call. cbn [Producer_cfg]. rewrite Hs, Hr, Hc.
  assert (analyticsRate (defaultConfig zero_config) =
          if internal_BoolEnv "DD_TRACE_ANALYTICS_ENABLED" false
          then 1%float else nan) as ->.
  { unfold defaultConfig. by destruct (internal_BoolEnv _ _). }
  assert (service (defaultConfig zero_config) = "nsq") as ->.
  { unfold defaultConfig. by destruct (internal_BoolEnv _ _). }
  assert (ctx (defaultConfig zero_config) = Some context_Background) as ->.
  { unfold defaultConfig. by destruct (internal_BoolEnv _ _). }
  fold rate. by destruct (is_nan rate).
Qed.

End OptionsProperties.

(** * The profiler's profile types *)

Section ProfileTypes.

Import Profiler.

Implicit Types (t : ProfileType).

Lemma declared_cases t :
  0 ≤ t ≤ 6 →
  t = HeapProfile ∨ t = CPUProfile ∨ t = BlockProfile ∨ t = MutexProfile ∨
  t = GoroutineProfile ∨ t = expGoroutineWaitProfile ∨ t = MetricsProfile.
Proof.
  unfold HeapProfile, CPUProfile, BlockProfile, MutexProfile, GoroutineProfile,
    expGoroutineWaitProfile, MetricsProfile. lia.
Qed.

Lemma undeclared_collector t :
  ¬ (0 ≤ t ≤ 6) →
  ProfileType_collector t =
    {| Name := "unknown"; Filename := "unknown"; collector_Delta := None;
       Collect := collect_not_implemented |}.
Proof.
  intros Hout. unfold ProfileType_collector.
  replace (collectors !! t) with (@None collector); [done|].
  symmetry. unfold collectors. apply not_elem_of_list_to_map_1.
  cbn [fmap list_fmap fst].
  unfold HeapProfile, CPUProfile, BlockProfile, MutexProfile, GoroutineProfile,
    expGoroutineWaitProfile, MetricsProfile.
  rewrite !not_elem_of_cons. split_and!; try lia. apply not_elem_of_nil.
Qed.

(** A profile type is called "unknown", with file name "unknown" and no
    delta profile, exactly when it is not one of the seven declared
    constants. *)
Theorem ProfileType_unknown_iff t :
  (ProfileType_String t = "unknown" ↔ ¬ (0 ≤ t ≤ 6)) ∧
  (ProfileType_Filename t = "unknown" ↔ ¬ (0 ≤ t ≤ 6)) ∧
  (ProfileType_Tag t = "profile_type:unknown" ↔ ¬ (0 ≤ t ≤ 6)).
Proof.
  unfold ProfileType_Tag, ProfileType_String, ProfileType_Filename.
  destruct (decide (0 ≤ t ≤ 6)) as [Hin|Hout].
  - split_and!; (split; [|done]);
      destruct (declared_cases t Hin) as [->|[->|[->|[->|[->|[->| ->]]]]]];
      by vm_compute.
  - rewrite (undeclared_collector t Hout). by split_and!.
Qed.

(** The name, the file name and the tag of a declared profile type each
    identify it: no other profile type, declared or not, has the same. *)
Theorem ProfileType_names_identify t1 t2 :
  0 ≤ t1 ≤ 6 →
  ProfileType_String t1 = ProfileType_String t2 ∨
  ProfileType_Filename t1 = ProfileType_Filename t2 ∨
  ProfileType_Tag t1 = ProfileType_Tag t2 →
  t1 = t2.
Proof.
  intros Hin1 Heq.
  unfold ProfileType_Tag, ProfileType_String, ProfileType_Filename in Heq.
  destruct (decide (0 ≤ t2 ≤ 6)) as [Hin2|Hout2].
  - destruct (declared_cases t1 Hin1) as [->|[->|[->|[->|[->|[->| ->]]]]]];
      destruct (declared_cases t2 Hin2) as [->|[->|[->|[->|[->|[->| ->]]]]]];
      try done; vm_compute in Heq; by destruct Heq as [|[|]].
  - rewrite (undeclared_collector t2 Hout2) in Heq.
    destruct (declared_cases t1 Hin1) as [->|[->|[->|[->|[->|[->| ->]]]]]];
      vm_compute in Heq; by destruct Heq as [|[|]].
Qed.

(** The profile types with a delta profile are heap, block and mutex. *)
Lemma delta_types t :
  is_Some (collector_Delta (ProfileType_collector t)) ↔
  t = HeapProfile ∨ t = BlockProfile ∨ t = MutexProfile.
Proof.
  destruct (decide (0 ≤ t ≤ 6)) as [Hin|Hout].
  - destruct (declared_cases t Hin) as [->|[->|[->|[->|[->|[->| ->]]]]]];
      vm_compute; split; try (intros [? [=]]); try (intros [[=]|[[=]|[=]]]);
      eauto.
  - rewrite (undeclared_collector t Hout). simpl. split; [by intros [? [=]]|].
    unfold HeapProfile, BlockProfile, MutexProfile. lia.
Qed.

End ProfileTypes.

(** * Delta profiles and runProfile *)

Section DeltaProfiles.

Import Profiler.

Context {RT : Runtime}.

Implicit Types (p : profiler) (c : collector) (t : ProfileType).
Implicit Types (data : list byte) (w : World).

(** [deltaProfile] by cases, with the state it leaves. *)
Lemma deltaProfile_cases p c t data (r : option profile * option error) p' :
  deltaProfile p c t data = (r, p') →
  (collector_Delta c = None ∧ r = (None, None) ∧ p' = p) ∨
  (∃ d, collector_Delta c = Some d ∧
     ((∃ err, pprofile_ParseData data = inr err ∧
              r = (None, Some ("delta prof parse: " +:+ err)) ∧ p' = p) ∨
      (∃ cur, pprofile_ParseData data = inl cur ∧
         ((prev p !! t = None ∧
           r = (Some {| profile_name := "delta-" +:+ Filename c;
                        profile_data := data |}, None) ∧
           p' = set_prev (<[t := cur]> (prev p)) p) ∨
          (∃ old old' cur' conv,
             prev p !! t = Some old ∧
             Delta_Convert d old cur = (old', cur', conv) ∧
             ((∃ err, r = (None, Some err) ∧
                      p' = set_prev (<[t := old']> (prev p)) p) ∨
              (∃ bytes, r = (Some {| profile_name := "delta-" +:+ Filename c;
                                    profile_data := bytes |}, None) ∧
                        p' = set_prev (<[t := cur']> (prev p)) p))))))).
Proof.
  unfold deltaProfile. intros Hd.
  destruct (collector_Delta c) as [d|]; [right; exists d; split; [done|]
                                        |left; by simplify_eq].
  destruct (pprofile_ParseData data) as [cur|err];
    [right; exists cur; split; [done|]|left; exists err; by simplify_eq].
  destruct (prev p !! t) as [old|] eqn:Hprev; [right|left; by simplify_eq].
  destruct (Delta_Convert d old cur) as [[old' cur'] conv] eqn:Hconv.
  exists old, old', cur', conv. split_and!; [done|done|].
  destruct conv as [dp|err]; [|left; eexists; by simplify_eq].
  destruct (Profile_Write _) as [bytes [err|]];
    [left; eexists; by simplify_eq|].
  right. exists bytes. simplify_eq. split; [done|].
  unfold set_prev. cbn [prev cfg_cpuDuration cfg_tags].
  by rewrite insert_insert_eq.
Qed.

(** What [deltaProfile] returns: a profile named "delta-" and the file
    name of the collector, or an error, never both; and neither of them
    exactly when the collector has no delta. *)
Theorem deltaProfile_result p c t data (prof : option profile)
    (err : option error) p' :
  deltaProfile p c t data = ((prof, err), p') →
  (prof = None ∧ err = None ↔ collector_Delta c = None) ∧
  ¬ (is_Some prof ∧ is_Some err) ∧
  (∀ pr, prof = Some pr → profile_name pr = "delta-" +:+ Filename c).
Proof.
  intros Hd. apply deltaProfile_cases in Hd
    as [(Hnone & [= -> ->] & _)|(d & Hsome & Hrest)].
  { split_and!; [done| |done]. by intros [[? [=]] _]. }
  rewrite Hsome.
  assert ((prof = None ∧ is_Some err) ∨
          (err = None ∧ ∃ bytes, prof = Some {| profile_name := "delta-" +:+ Filename c;
                                                profile_data := bytes |}))
    as Hshape.
  { destruct Hrest as [(e & _ & [= -> ->] & _)|(cur & _ & Hrest)]; [by left; eauto|].
    destruct Hrest as [(_ & [= -> ->] & _)|(old & old' & cur' & conv & _ & _ & Hrest)];
      [by right; eauto|].
    destruct Hrest as [(e & [= -> ->] & _)|(bytes & [= -> ->] & _)];
      [by left; eauto|by right; eauto]. }
  destruct Hshape as [[-> [e ->]]|[-> [bytes ->]]].
  - split_and!; [by split; intros; [destruct_and?|]| |done].
    by intros [[? [=]] _].
  - split_and!; [by split; intros; [destruct_and?|]| |by intros ? [= <-]].
    by intros [_ [? [=]]].
Qed.


(** [deltaProfile] changes nothing of the profiler but the previous
    profile of the type it is called for, and never removes one: after a
    profile is returned, the type has a previous profile. *)
Theorem deltaProfile_touches_only_its_type p c t data
    (r : option profile * option error) p' :
  deltaProfile p c t data = (r, p') →
  cfg_cpuDuration p' = cfg_cpuDuration p ∧
  cfg_tags p' = cfg_tags p ∧
  (∀ t', t' ≠ t → prev p' !! t' = prev p !! t') ∧
  (is_Some (prev p !! t) → is_Some (prev p' !! t)) ∧
  (is_Some r.1 → is_Some (prev p' !! t)).
Proof.
  intros Hd.
  assert (p' = p ∧ r.1 = None ∨ ∃ x, p' = set_prev (<[t := x]> (prev p)) p)
    as [[-> Hr]|[x ->]].
  { apply deltaProfile_cases in Hd
      as [(_ & -> & ->)|(d & _ & [(e & _ & -> & ->)|(cur & _ & Hrest)])];
      [by left|by left|].
    destruct Hrest as [(_ & _ & ->)|(old & old' & cur' & conv & _ & _ & Hrest)];
      [by right; eauto|].
    destruct Hrest as [(e & _ & ->)|(bytes & _ & ->)]; by right; eauto. }
  - split_and!; [done|done|done|done|]. rewrite Hr. by intros [? [=]].
  - unfold set_prev. cbn [prev cfg_cpuDuration cfg_tags].
    split_and!; [done|done| | |].
    + intros t' Hne. by rewrite lookup_insert_ne.
    + intros _. rewrite lookup_insert_eq. by eexists.
    + intros _. rewrite lookup_insert_eq. by eexists.
Qed.


(** Two collections in a row of a type with a delta and no previous
    profile: the first returns the data as it is; the second returns the
    first converted against it, stamped with the time of the second
    profile and the time between the two, and leaves the second profile
    as the previous one. *)
Theorem deltaProfile_twice p c t (d : Delta) (data1 data2 bytes : list byte)
    (cur1 cur2 cur1' cur2' dp : Profile rest) :
  collector_Delta c = Some d →
  prev p !! t = None →
  pprofile_ParseData data1 = inl cur1 →
  pprofile_ParseData data2 = inl cur2 →
  Delta_Convert d cur1 cur2 = (cur1', cur2', inl dp) →
  Profile_Write
    (set_TimeNanos (Profile_TimeNanos cur2')
       (set_DurationNanos
          (int64 (Profile_TimeNanos cur2' - Profile_TimeNanos cur1')) dp))
    = (bytes, None) →
  ∃ p1 p2,
    deltaProfile p c t data1 =
      ((Some {| profile_name := "delta-" +:+ Filename c; profile_data := data1 |},
        None), p1) ∧
    deltaProfile p1 c t data2 =
      ((Some {| profile_name := "delta-" +:+ Filename c; profile_data := bytes |},
        None), p2) ∧
    prev p2 = <[t := cur2']> (prev p).
Proof.
  intros Hdelta Hprev Hp1 Hp2 Hconv Hwrite.
  eexists _, _. split_and!.
  - unfold deltaProfile. by rewrite Hdelta, Hp1, Hprev.
  - unfold deltaProfile. rewrite Hdelta, Hp2. cbn [set_prev prev].
    rewrite lookup_insert_eq, Hconv, Hwrite. done.
  - cbn [set_prev prev]. by rewrite !insert_insert_eq.
Qed.

(** [runProfile] on a type that is not declared: the error of the
    fallback collector, no profile, the profiler untouched, and nothing
    done to the world but one reading of the clock. *)
Theorem runProfile_undeclared_type p t w :
  ¬ (0 ≤ t ≤ 6) →
  runProfile p t w =
    (([], Some (errors_New "profile type not implemented")), p, (now w).2).
Proof.
  intros Hout. unfold runProfile. rewrite (undeclared_collector t Hout).
  cbn [Collect call_Collect]. by destruct (now w).
Qed.

(** The profiles of a successful [runProfile]: the data the collector of
    the type returned, under the file name of the type, followed, for
    heap, block and mutex and for no other type, by the profile
    [deltaProfile] makes of that data, named "delta-" and that file name.
    Without a delta the profiler is left as it was.  The world is left by
    the clock reading, the collection, a second clock reading and one
    statsd timing of the time between the two readings, tagged with the
    profiler's tags and the tag of the type. *)
Theorem runProfile_profiles p t w (profs : list profile) p' w' :
  runProfile p t w = ((profs, None), p', w') →
  ∃ data w2,
    call_Collect (Collect (ProfileType_collector t)) (ProfileType_collector t)
      p (now w).2 = ((data, None), w2) ∧
    w' = statsd_Timing "datadog.profiler.go.collect_time"
           (Time_Sub (now w2).1 (now w).1)
           (cfg_tags p ++ [ProfileType_Tag t]) 1 (now w2).2 ∧
    if decide (t = HeapProfile ∨ t = BlockProfile ∨ t = MutexProfile) then
      ∃ delta,
        deltaProfile p (ProfileType_collector t) t data =
          ((Some {| profile_name := "delta-" +:+ ProfileType_Filename t;
                    profile_data := delta |}, None), p') ∧
        profs =
          [{| profile_name := ProfileType_Filename t; profile_data := data |};
           {| profile_name := "delta-" +:+ ProfileType_Filename t;
              profile_data := delta |}] ∧
        is_Some (prev p' !! t)
    else
      profs = [{| profile_name := ProfileType_Filename t; profile_data := data |}] ∧
      p' = p.
Proof.
  unfold runProfile, ProfileType_Filename. intros Hrun.
  destruct (now w) as [start w1]. cbn [fst snd].
  destruct (call_Collect _ _ p w1) as [[data [e|]] w2]; [done|].
  destruct (deltaProfile p (ProfileType_collector t) t data)
    as [[prof err] p1] eqn:Hd.
  destruct err as [e|]; [done|].
  destruct (now w2) as [end_ w3] eqn:Hnow. simplify_eq. exists data, w2.
  rewrite Hnow. cbn [fst snd].
  pose proof (delta_types t) as Hdt.
  assert (cfg_tags p' = cfg_tags p) as Htags.
  { apply deltaProfile_cases in Hd
      as [(_ & _ & ->)|(d & _ & [(e & _ & _ & ->)|(cur & _ & Hrest)])];
      [done|done|].
    destruct Hrest as [(_ & _ & ->)|(old & old' & cur' & conv & _ & _ & Hrest)];
      [done|].
    by destruct Hrest as [(e & _ & ->)|(bytes & _ & ->)]. }
  rewrite Htags. split_and!; [done|done|].
  assert (collector_Delta (ProfileType_collector t) = None ∧ prof = None ∧ p' = p ∨
          is_Some (collector_Delta (ProfileType_collector t)) ∧
          (∃ bytes, prof = Some {| profile_name :=
                                     "delta-" +:+ Filename (ProfileType_collector t);
                                   profile_data := bytes |}) ∧
          is_Some (prev p' !! t)) as Hcases.
  { pose proof Hd as Hd'. apply deltaProfile_cases in Hd'
      as [(Hnone & Hr & ->)|(d & Hsome & [(e & _ & Hr & _)|(cur & _ & Hrest)])];
      [left; by simplify_eq|by simplify_eq|].
    right. split; [by eexists|].
    destruct Hrest as [(_ & Hr & ->)|(old & old' & cur' & conv & _ & _ & Hrest)].
    { simplify_eq. split; [by eexists|].
      cbn [set_prev prev]. rewrite lookup_insert_eq. by eexists. }
    destruct Hrest as [(e & Hr & _)|(bytes & Hr & ->)]; [by simplify_eq|].
    simplify_eq. split; [by eexists|].
    cbn [set_prev prev]. rewrite lookup_insert_eq. by eexists. }
  destruct (decide (t = HeapProfile ∨ t = BlockProfile ∨ t = MutexProfile))
    as [Hyes|Hno].
  - apply Hdt in Hyes as [d Hsome].
    destruct Hcases as [(Hnone & _)|(_ & [bytes ->] & Hprev)]; [congruence|].
    by exists bytes.
  - destruct Hcases as [(_ & -> & ->)|(Hsome & _)]; [done|].
    destruct Hno. by apply Hdt.
Qed.

(** [runProfile] never returns profiles together with an error. *)
Theorem runProfile_error_without_profiles p t w (profs : list profile)
    (e : error) p' w' :
  runProfile p t w = ((profs, Some e), p', w') → profs = [].
Proof.
  unfold runProfile. intros Hrun.
  destruct (now w) as [start w1].
  destruct (call_Collect _ _ p w1) as [[data [e1|]] w2]; [by simplify_eq|].
  destruct (deltaProfile p (ProfileType_collector t) t data) as [[prof [e2|]] p1];
    [by simplify_eq|].
  by destruct (now w2).
Qed.

End DeltaProfiles.

(** * The goroutine wait profile *)

Section Goroutines.

Import Profiler.

Context {RT : Runtime}.

Implicit Types (b : builder) (calls done : list Frame) (g : Goroutine).
Implicit Types (gs : list Goroutine).

Lemma uint64_succ (v : Z) : uint64 (uint64 v + 1) = uint64 (v + 1).
Proof. unfold uint64. by rewrite Z.add_mod_idemp_l. Qed.

(** The builder once the frames [done] have been visited. *)
Lemma add_calls done b (locs : list Location) calls :
  b_Function b = imap function_at done →
  b_Location b = imap location_at done →
  functionID b = uint64 (1 + Z.of_nat (length done)) →
  locationID b = uint64 (1 + Z.of_nat (length done)) →
  foldl (add_call {| Mapping_ID := 1; Mapping_HasFunctions := true |}) (b, locs) calls =
    ({| b_Function := imap function_at (done ++ calls);
        b_Location := imap location_at (done ++ calls);
        b_Sample := b_Sample b;
        functionID := uint64 (1 + Z.of_nat (length (done ++ calls)));
        locationID := uint64 (1 + Z.of_nat (length (done ++ calls))) |},
     locs ++ imap (λ i, location_at (length done + i)) calls).
Proof.
  revert done b locs.
  induction calls as [|c calls IH]; intros done b locs Hf Hl Hfid Hlid.
  { cbn [foldl imap]. rewrite !app_nil_r. destruct b; simpl in *. by subst. }
  cbn [foldl]. unfold add_call at 2.
  assert (function_at (length done) c =
          {| Function_ID := functionID b; Function_Name := Frame_Func c;
             Function_Filename := Frame_File c |}) as Hfun.
  { unfold function_at. by rewrite Hfid. }
  assert (location_at (length done) c =
          {| Location_ID := locationID b; Location_Mapping := {| Mapping_ID := 1; Mapping_HasFunctions := true |};
             Location_Line :=
               [{| Line_Function :=
                     {| Function_ID := functionID b; Function_Name := Frame_Func c;
                        Function_Filename := Frame_File c |};
                   Line_Line := int64 (Frame_Line c) |}] |}) as Hloc.
  { unfold location_at. by rewrite Hfun, Hlid. }
  rewrite <- Hloc, <- Hfun.
  rewrite (IH (done ++ [c])); cbn [b_Function b_Location b_Sample functionID locationID].
  - rewrite <- !(assoc_L (++)). cbn [app]. f_equal.
    rewrite imap_cons. rewrite Nat.add_0_r. f_equal. f_equal.
    apply imap_ext. intros i x _. cbn. f_equal. rewrite length_app. simpl. lia.
  - rewrite Hf, imap_app. cbn [imap]. by rewrite Nat.add_0_r.
  - rewrite Hl, imap_app. cbn [imap]. by rewrite Nat.add_0_r.
  - rewrite Hfid, uint64_succ, length_app. simpl. f_equal. lia.
  - rewrite Hlid, uint64_succ, length_app. simpl. f_equal. lia.
Qed.

(** The builder after the goroutines [gs], from one that has visited the
    frames [done]. *)
Lemma add_goroutines done b gs :
  b_Function b = imap function_at done →
  b_Location b = imap location_at done →
  functionID b = uint64 (1 + Z.of_nat (length done)) →
  locationID b = uint64 (1 + Z.of_nat (length done)) →
  let b' := foldl (add_goroutine {| Mapping_ID := 1; Mapping_HasFunctions := true |}) b gs in
  b_Function b' = imap function_at (done ++ all_frames gs) ∧
  b_Location b' = imap location_at (done ++ all_frames gs) ∧
  concat (Sample_Location <$> b_Sample b') =
    concat (Sample_Location <$> b_Sample b) ++
    imap (λ i, location_at (length done + i)) (all_frames gs) ∧
  (λ s, (Sample_Value s, Sample_Label s, Sample_NumLabel s, Sample_NumUnit s,
         length (Sample_Location s))) <$> b_Sample b' =
    ((λ s, (Sample_Value s, Sample_Label s, Sample_NumLabel s, Sample_NumUnit s,
            length (Sample_Location s))) <$> b_Sample b) ++
    ((λ g, ([Goroutine_Wait g],
            ({[ "state" := [Goroutine_State g];
                "lockedm" := [bool_verb (Goroutine_LockedToThread g)] ]}
               : gmap string (list string)),
            ({[ "goid" := [int64 (Goroutine_ID g)] ]} : gmap string (list Z)),
            ({[ "goid" := ["id"] ]} : gmap string (list string)),
            length (full_stack g))) <$> gs).
Proof.
  revert done b.
  induction gs as [|g gs IH]; intros done b Hf Hl Hfid Hlid.
  { cbn. unfold all_frames. cbn. rewrite !app_nil_r. done. }
  cbn [foldl]. cbn zeta.
  assert (add_goroutine {| Mapping_ID := 1; Mapping_HasFunctions := true |} b g =
          {| b_Function := imap function_at (done ++ full_stack g);
             b_Location := imap location_at (done ++ full_stack g);
             b_Sample :=
               b_Sample b ++
               [{| Sample_Location :=
                     imap (λ i, location_at (length done + i)) (full_stack g);
                   Sample_Value := [Goroutine_Wait g];
                   Sample_Label :=
                     {[ "state" := [Goroutine_State g];
                        "lockedm" := [bool_verb (Goroutine_LockedToThread g)] ]};
                   Sample_NumLabel := {[ "goid" := [int64 (Goroutine_ID g)] ]};
                   Sample_NumUnit := {[ "goid" := ["id"] ]} |}];
             functionID := uint64 (1 + Z.of_nat (length (done ++ full_stack g)));
             locationID := uint64 (1 + Z.of_nat (length (done ++ full_stack g))) |})
    as ->.
  { unfold add_goroutine. by rewrite (add_calls done b [] (full_stack g)). }
  set (b1 := Build_builder _ _ _ _ _).
  destruct (IH (done ++ full_stack g) b1) as (IHf & IHl & IHc & IHs); [done..|].
  cbn zeta in *. rewrite IHf, IHl, IHc, IHs.
  unfold all_frames. rewrite fmap_cons. cbn [concat]. fold (all_frames gs).
  unfold b1. cbn [b_Sample].
  rewrite !(assoc_L (++)). split_and!; [done|done| |].
  - rewrite fmap_app, concat_app. cbn [fmap list_fmap concat Sample_Location].
    rewrite app_nil_r, imap_app, <- !(assoc_L (++)). f_equal. f_equal.
    apply imap_ext. intros i x _. cbn. f_equal. rewrite length_app. lia.
  - rewrite fmap_app. cbn [fmap list_fmap].
    cbn [Sample_Value Sample_Label Sample_NumLabel Sample_NumUnit Sample_Location].
    rewrite length_imap, <- !(assoc_L (++)). done.
Qed.

Lemma goroutine_profile_built gs (errs : list error) (t : Time) :
  let p := goroutine_profile gs errs t in
  Profile_Function p = imap function_at (all_frames gs) ∧
  Profile_Location p = imap location_at (all_frames gs) ∧
  concat (Sample_Location <$> Profile_Sample p) = Profile_Location p ∧
  (λ s, (Sample_Value s, Sample_Label s, Sample_NumLabel s, Sample_NumUnit s,
         length (Sample_Location s))) <$> Profile_Sample p =
    (λ g, ([Goroutine_Wait g],
           ({[ "state" := [Goroutine_State g];
               "lockedm" := [bool_verb (Goroutine_LockedToThread g)] ]}
              : gmap string (list string)),
           ({[ "goid" := [int64 (Goroutine_ID g)] ]} : gmap string (list Z)),
           ({[ "goid" := ["id"] ]} : gmap string (list string)),
           length (full_stack g))) <$> gs.
Proof.
  cbn zeta. unfold goroutine_profile.
  cbn [Profile_Function Profile_Location Profile_Sample].
  edestruct (add_goroutines [] {| b_Function := []; b_Location := []; b_Sample := [];
                                  functionID := 1; locationID := 1 |} gs)
    as (Hf & Hl & Hc & Hs); [done..|].
  cbn [app] in *. rewrite Hf, Hl, Hc, Hs. split_and!; try done.
Qed.

(** The functions and locations of the profile built from the goroutines:
    one of each for every frame of every goroutine, the frame that
    created the goroutine and the virtual frame for elided frames
    included, in the order of the frames and numbered from 1; a location
    has one line, which points to the function of the same number. *)
Theorem goroutine_profile_functions_locations gs (errs : list error) (t : Time) :
  Profile_Function (goroutine_profile gs errs t) =
    imap function_at (all_frames gs) ∧
  Profile_Location (goroutine_profile gs errs t) =
    imap location_at (all_frames gs).
Proof.
  destruct (goroutine_profile_built gs errs t) as (Hf & Hl & _). by split.
Qed.

(** The samples of the profile: one for each goroutine, in order, with
    its wait time as the value, its state, lock flag and id as labels
    and as many locations as the goroutine has frames; the locations of
    the samples, end to end, are the locations of the profile. *)
Theorem goroutine_profile_samples gs (errs : list error) (t : Time) :
  concat (Sample_Location <$> Profile_Sample (goroutine_profile gs errs t)) =
    Profile_Location (goroutine_profile gs errs t) ∧
  (λ s, (Sample_Value s, Sample_Label s, Sample_NumLabel s, Sample_NumUnit s,
         length (Sample_Location s)))
    <$> Profile_Sample (goroutine_profile gs errs t) =
    (λ g, ([Goroutine_Wait g],
           ({[ "state" := [Goroutine_State g];
               "lockedm" := [bool_verb (Goroutine_LockedToThread g)] ]}
              : gmap string (list string)),
           ({[ "goid" := [int64 (Goroutine_ID g)] ]} : gmap string (list Z)),
           ({[ "goid" := ["id"] ]} : gmap string (list string)),
           length (full_stack g))) <$> gs.
Proof.
  destruct (goroutine_profile_built gs errs t) as (_ & _ & Hc & Hs). by split.
Qed.

(** With fewer than 2^64 - 1 frames in all, the ids of the functions are
    1, 2, 3, ... without wrap-around, so none is 0 and no two are equal;
    the same holds of the locations. *)
Theorem goroutine_profile_ids gs (errs : list error) (t : Time) :
  Z.of_nat (length (all_frames gs)) < 2 ^ 64 - 1 →
  Function_ID <$> Profile_Function (goroutine_profile gs errs t) =
    (λ i : nat, 1 + Z.of_nat i) <$> seq 0 (length (all_frames gs)) ∧
  Location_ID <$> Profile_Location (goroutine_profile gs errs t) =
    (λ i : nat, 1 + Z.of_nat i) <$> seq 0 (length (all_frames gs)) ∧
  NoDup (Function_ID <$> Profile_Function (goroutine_profile gs errs t)) ∧
  0 ∉ Function_ID <$> Profile_Function (goroutine_profile gs errs t).
Proof.
  intros Hbound.
  destruct (goroutine_profile_built gs errs t) as (Hf & Hl & _).
  cbn zeta in *. rewrite Hf, Hl.
  assert (∀ (l : list Frame) (k : nat),
            Z.of_nat (k + length l) < 2 ^ 64 - 1 →
            Function_ID <$> imap (λ i, function_at (k + i)) l =
              (λ i : nat, 1 + Z.of_nat i) <$> seq k (length l) ∧
            Location_ID <$> imap (λ i, location_at (k + i)) l =
              (λ i : nat, 1 + Z.of_nat i) <$> seq k (length l)) as Hgen.
  { induction l as [|c l IH]; intros k Hk; [done|].
    cbn [length] in *. rewrite <- cons_seq, !imap_cons, !fmap_cons, Nat.add_0_r.
    destruct (IH (S k)) as [IHf IHl]; [lia|].
    split.
    - f_equal.
      + cbn [Function_ID function_at]. unfold uint64.
        by rewrite Z.mod_small by lia.
      + etrans; [|exact IHf].
        f_equal. apply imap_ext. intros i x _. cbn. f_equal. lia.
    - f_equal.
      + cbn [Location_ID location_at]. unfold uint64.
        by rewrite Z.mod_small by lia.
      + etrans; [|exact IHl].
        f_equal. apply imap_ext. intros i x _. cbn. f_equal. lia. }
  destruct (Hgen (all_frames gs) 0%nat) as [Hfid Hlid]; [simpl; lia|].
  cbn [Nat.add] in Hfid, Hlid.
  rewrite (imap_ext _ function_at (all_frames gs)) in Hfid by done.
  rewrite (imap_ext _ location_at (all_frames gs)) in Hlid by done.
  rewrite Hfid, Hlid. split_and!; [done|done| |].
  - apply NoDup_fmap_2; [|apply NoDup_seq]. intros i j. lia.
  - rewrite list_elem_of_fmap. intros (i & Hi & _). lia.
Qed.

End Goroutines.

(** * Instances of the further properties *)

Section Instances.

Import Mock MockRuntime Options Profiler.

Lemma extract_without_blob_witness :
  ∃ msgbody,
    extract (T:=mock_tracer) (G:=mock_gob) (Slice [x00; x00; x00; x02; x61; x62] []) =
      Returned (None, msgbody, None) ∧
    contents msgbody = drop 4 [x00; x00; x00; x02; x61; x62].
Proof.
  apply (extract_without_blob (T:=mock_tracer) (G:=mock_gob)
           (Slice [x00; x00; x00; x02; x61; x62] []) 2);
    reflexivity.
Defined.

Lemma extract_with_blob_witness :
  ∃ msgbody,
    extract (T:=mock_tracer) (G:=mock_gob)
      (Slice (frame (bytes "hi") (mock_Encode (mock_Inject (span_ctx traced) ∅).1).1)
             [x00]) =
      Returned (Some {| trace_id := 7; span_id := 9; baggage := [] |}, msgbody, None) ∧
    contents msgbody = String.list_byte_of_string "hi" ∧
    len msgbody = 2.
Proof.
  eapply (extract_with_blob (T:=mock_tracer) (G:=mock_gob)
            (Slice (frame (bytes "hi")
                      (mock_Encode (mock_Inject (span_ctx traced) ∅).1).1) [x00]) 2).
  - reflexivity.
  - by vm_compute.
  - vm_compute. reflexivity.
  - vm_compute. reflexivity.
Defined.

Lemma inject_frames_decode_uniquely_witness :
  contents (bytes "hello") = contents (Slice (String.list_byte_of_string "hello") [x00]).
Proof.
  eapply (inject_frames_decode_uniquely (T:=mock_tracer) (G:=mock_gob)
            [] [[x01]] untraced untraced'
            (bytes "hello") (Slice (String.list_byte_of_string "hello") [x00])).
  - vm_compute. reflexivity.
  - vm_compute. reflexivity.
  - by vm_compute.
  - by vm_compute.
  - reflexivity.
Defined.

Lemma bodySize_app_perm_witness :
  bodySize ([nil_slice; bytes "c"] ++ [bytes "ab"]) =
    int_add (bodySize [bytes "ab"]) (bodySize [nil_slice; bytes "c"]).
Proof.
  apply (bodySize_app_perm [bytes "ab"] [nil_slice; bytes "c"]).
  apply Permutation_app_comm.
Defined.

Lemma NewProducer_last_option_wins_witness :
  ∃ cfg,
    NewProducer "127.0.0.1:4150" tt
      (option_of <$> [SetService "a"; SetAnalyticsRate nan; SetService "b"]) =
      (Some {| Producer_Producer := Some "127.0.0.1:4150"; Producer_cfg := cfg |},
       None) ∧
    service cfg = "b" ∧ analyticsRate cfg = nan ∧ ctx cfg = Some "background".
Proof.
  apply (NewProducer_last_option_wins (E:=mock_env) "127.0.0.1:4150" tt
           (Some "127.0.0.1:4150")
           [SetService "a"; SetAnalyticsRate nan; SetService "b"]).
  reflexivity.
Defined.

Lemma startSpan_of_configured_producer_witness :
  startSpan_call
    {| Producer_Producer := Some "127.0.0.1:4150";
       Producer_cfg := {| service := "orders"; analyticsRate := 0.5;
                          ctx := Some "background" |} |}
    "topic" "PUBLISH" =
    (Some "background", "PUBLISH",
     [tracer_SpanType "queue"; tracer_ServiceName "orders";
      tracer_ResourceName "topic"; tracer_Tag "_dd1.sr.eausr" 0.5%float]).
Proof.
  apply (startSpan_of_configured_producer (E:=mock_env) "127.0.0.1:4150" tt _
           [SetAnalyticsRate 0.5; SetService "orders"] "topic" "PUBLISH").
  reflexivity.
Defined.

Lemma ProfileType_names_identify_witness :
  0 ≤ MutexProfile ≤ 6 ∧
  ProfileType_Filename MutexProfile = ProfileType_Filename 3 ∧
  MutexProfile = 3.
Proof.
  split; [by vm_compute|]. split; [reflexivity|].
  apply (ProfileType_names_identify MutexProfile 3); [by vm_compute|].
  right. left. reflexivity.
Defined.

Lemma deltaProfile_result_witness :
  (Some {| profile_name := "delta-heap.pprof"; profile_data := [x05] |} = None ∧
   (None : option error) = None ↔
   collector_Delta (ProfileType_collector HeapProfile) = None) ∧
  ¬ (is_Some (Some {| profile_name := "delta-heap.pprof"; profile_data := [x05] |}) ∧
     is_Some (None : option error)) ∧
  (∀ pr, Some {| profile_name := "delta-heap.pprof"; profile_data := [x05] |} = Some pr →
         profile_name pr = "delta-" +:+ Filename (ProfileType_collector HeapProfile)).
Proof.
  eapply (deltaProfile_result (RT:=mock_runtime) fresh_profiler
            (ProfileType_collector HeapProfile) HeapProfile [x05]).
  reflexivity.
Defined.

Lemma deltaProfile_touches_only_its_type_witness :
  is_Some (prev (deltaProfile (RT:=mock_runtime) fresh_profiler
                   (ProfileType_collector HeapProfile) HeapProfile [x05]).2
           !! HeapProfile).
Proof.
  eapply (deltaProfile_touches_only_its_type (RT:=mock_runtime) fresh_profiler
            (ProfileType_collector HeapProfile) HeapProfile [x05]).
  - reflexivity.
  - vm_compute. by eexists.
Defined.

Lemma deltaProfile_twice_witness :
  ∃ p1 p2,
    deltaProfile (RT:=mock_runtime) fresh_profiler
      (ProfileType_collector MutexProfile) MutexProfile [x05] =
      ((Some {| profile_name := "delta-mutex.pprof"; profile_data := [x05] |},
        None), p1) ∧
    deltaProfile (RT:=mock_runtime) p1
      (ProfileType_collector MutexProfile) MutexProfile [x09] =
      ((Some {| profile_name := "delta-mutex.pprof"; profile_data := [x09; x04] |},
        None), p2) ∧
    prev p2 = <[MutexProfile := parsed 9]> ∅.
Proof.
  eapply (deltaProfile_twice (RT:=mock_runtime) fresh_profiler
            (ProfileType_collector MutexProfile) MutexProfile
            {| Delta_SampleTypes := [] |} [x05] [x09] [x09; x04]
            (parsed 5) (parsed 9) (parsed 5) (parsed 9) (parsed 9));
    reflexivity.
Defined.

Lemma runProfile_undeclared_type_witness :
  runProfile (RT:=mock_runtime) fresh_profiler 7 [] =
    (([], Some "profile type not implemented"%string), fresh_profiler, ["now"]).
Proof.
  apply (runProfile_undeclared_type (RT:=mock_runtime) fresh_profiler 7 []).
  lia.
Defined.

Lemma runProfile_profiles_witness :
  ∃ data w2,
    call_Collect (RT:=mock_runtime) collectGenericProfile
      (ProfileType_collector HeapProfile) fresh_profiler ["now"] =
      ((data, None), w2) ∧
    data = [x07; x68; x65; x61; x70] ∧
    (runProfile (RT:=mock_runtime) fresh_profiler HeapProfile []).1.1.1 =
      [{| profile_name := "heap.pprof"; profile_data := data |};
       {| profile_name := "delta-heap.pprof"; profile_data := data |}] ∧
    (runProfile (RT:=mock_runtime) fresh_profiler HeapProfile []).2 =
      ["now"; "write"; "now"; "timing"].
Proof.
  destruct (runProfile_profiles (RT:=mock_runtime) fresh_profiler HeapProfile []
              (runProfile (RT:=mock_runtime) fresh_profiler HeapProfile []).1.1.1
              (runProfile (RT:=mock_runtime) fresh_profiler HeapProfile []).1.2
              (runProfile (RT:=mock_runtime) fresh_profiler HeapProfile []).2)
    as (data & w2 & Hcollect & Hworld & Hprofs); [reflexivity|].
  rewrite decide_True in Hprofs by (by left).
  destruct Hprofs as (delta & Hdelta & Hprofs & _).
  exists data, w2. vm_compute in Hcollect. injection Hcollect as <- <-.
  vm_compute in Hdelta. injection Hdelta as <-.
  split_and!; [reflexivity|reflexivity|exact Hprofs|reflexivity].
Defined.

Lemma runProfile_error_without_profiles_witness :
  (runProfile (RT:=mock_runtime) fresh_profiler GoroutineProfile []).1.1.1 = [].
Proof.
  apply (runProfile_error_without_profiles (RT:=mock_runtime) fresh_profiler
           GoroutineProfile [] _ "profile not found"
           (runProfile (RT:=mock_runtime) fresh_profiler GoroutineProfile []).1.2
           (runProfile (RT:=mock_runtime) fresh_profiler GoroutineProfile []).2).
  reflexivity.
Defined.

Lemma goroutine_profile_ids_witness :
  Function_ID <$> Profile_Function
                    (goroutine_profile (RT:=mock_runtime) [waiting; waiting] [] 0) =
    [1; 2; 3; 4; 5; 6].
Proof.
  apply (goroutine_profile_ids (RT:=mock_runtime) [waiting; waiting] [] 0).
  by vm_compute.
Defined.

End Instances.

Example goroutine_profile_of_waiting :
  Profiler.Profile_Function
    (Profiler.goroutine_profile (RT:=MockRuntime.mock_runtime)
       [MockRuntime.waiting] [] 0) =
    [{| Profiler.Function_ID := 1; Profiler.Function_Name := "main.main";
        Profiler.Function_Filename := "main.go" |};
     {| Profiler.Function_ID := 2; Profiler.Function_Name := "main.start";
        Profiler.Function_Filename := "main.go" |};
     {| Profiler.Function_ID := 3;
        Profiler.Function_Name := "...additional frames elided...";
        Profiler.Function_Filename := "" |}].
Proof. reflexivity. Qed.
